(** * go-steam-auth: a shallow embedding of [auth.go] and [user.go]

    The package offers three operations on a [SteamAuther]:
    [GetAuthUrl] (build the OpenID 2.0 redirect), [ValidateCallback]
    (confirm the provider's assertion with one server-to-server POST) and
    [GetSteamUser] (fetch a profile with one GET).

    Go strings are byte strings: they are [string] here, one [ascii] per
    byte.  The standard-library functions the package calls ([strings],
    [net/url], [errors], [fmt], [encoding/json]) are modelled after their
    documented behaviour, each in a module named after its package. *)

From Stdlib Require Import ZArith Ascii String List Lia Bool DecimalString.
From stdpp Require Import base option list gmap strings sorting.

Local Open Scope string_scope.
Local Open Scope Z_scope.
Set Warnings "-register-all".

(** ** Package [strings] *)

Module GoStrings.

(** [strings.HasPrefix s prefix]. *)
Fixpoint HasPrefix (s prefix : string) : bool :=
  match prefix, s with
  | EmptyString, _ => true
  | String _ _, EmptyString => false
  | String p prefix', String c s' => Ascii.eqb c p && HasPrefix s' prefix'
  end.

(** [strings.Contains s substr]: some suffix of [s] starts with [substr]. *)
Fixpoint Contains (s substr : string) : bool :=
  HasPrefix s substr ||
  match s with
  | EmptyString => false
  | String _ s' => Contains s' substr
  end.

(** [strings.Split s sep] for a separator of one byte, which is how the
    package calls it ([sep = "/"]).  The result of Go's [Split] with a
    non-empty separator has one element more than [s] has separators. *)
Fixpoint Split (s : string) (sep : ascii) : list string :=
  match s with
  | EmptyString => [EmptyString]
  | String c s' =>
      if Ascii.eqb c sep then EmptyString :: Split s' sep
      else match Split s' sep with
           | piece :: rest => String c piece :: rest
           | [] => [String c EmptyString]
           end
  end.

(** [strings.Cut s sep] for a separator of one byte: the text before the
    first [sep], the text after it, and whether [sep] was found. *)
Fixpoint Cut (s : string) (sep : ascii) : string * string * bool :=
  match s with
  | EmptyString => (EmptyString, EmptyString, false)
  | String c s' =>
      if Ascii.eqb c sep then (EmptyString, s', true)
      else let '(before, after, found) := Cut s' sep in
           (String c before, after, found)
  end.

(** [strings.IndexByte s c >= 0]. *)
Fixpoint ContainsByte (s : string) (c : ascii) : bool :=
  match s with
  | EmptyString => false
  | String d s' => Ascii.eqb d c || ContainsByte s' c
  end.

End GoStrings.

(** ** Go slices: indexing panics out of range *)

Inductive Checked (A : Type) : Type :=
| InRange (a : A)
| IndexOutOfRange.
Arguments InRange {A} a.
Arguments IndexOutOfRange {A}.

(** [p[i]] for a slice [p] and an [int] index [i]. *)
Definition index {A} (p : list A) (i : Z) : Checked A :=
  if i <? 0 then IndexOutOfRange
  else match nth_error p (Z.to_nat i) with
       | Some a => InRange a
       | None => IndexOutOfRange
       end.

(** [len(p)] as an [int]. *)
Definition len {A} (p : list A) : Z := Z.of_nat (List.length p).

(** A slice that a decoder writes into again and again: its elements, and
    what its array holds after them from an earlier, longer content.  (The
    array is copied whole when it grows, so no capacity is needed to tell
    what an element holds.)  The zero value has neither. *)
Record slice (A : Type) : Type := mkSlice {
  items : list A;
  beyond : list A
}.
Arguments mkSlice {A} items beyond.
Arguments items {A} s.
Arguments beyond {A} s.

(** ** Packages [errors] and [fmt] *)

Module GoErrors.

(** The error values the package can hold.
    - [errorString s]: a package-level value made by [errors.New]; the two
      of this package have different texts, so the text identifies the
      pointer.
    - [fmtError s]: the fresh value [fmt.Errorf] returns for a format
      without [%w].
    - [wrapError msg err]: what [fmt.Errorf] returns for a format with
      [%w]; [Unwrap] gives [err].
    - [external s]: an error made outside the package (the [*url.Error] of
      [net/http], a read error, a decoding error) with text [s]. *)
Inductive error : Type :=
| errorString (s : string)
| fmtError (s : string)
| wrapError (msg : string) (err : error)
| external (s : string).

(** [err.Error()]. *)
Definition Error (err : error) : string :=
  match err with
  | errorString s => s
  | fmtError s => s
  | wrapError msg _ => msg
  | external s => s
  end.

(** [errors.New]. *)
Definition New (text : string) : error := errorString text.

(** [err == target] on interface values holding pointers: only a
    package-level value can be named twice. *)
Definition same (err target : error) : bool :=
  match err, target with
  | errorString a, errorString b => String.eqb a b
  | _, _ => false
  end.

(** [errors.Is err target]: [err] or something it wraps is [target]. *)
Fixpoint Is (err target : error) : bool :=
  same err target ||
  match err with
  | wrapError _ inner => Is inner target
  | _ => false
  end.

(** The double quote. *)
Definition quote : string := String "034" EmptyString.

(** The lower-case hexadecimal digit of a value below 16. *)
Definition hexDigit (n : N) : ascii :=
  if (n <? 10)%N then ascii_of_N (48 + n) else ascii_of_N (87 + n).

(** The verb [%x] applied to a string: two lower-case hexadecimal digits
    per byte. *)
Fixpoint sprintf_x (s : string) : string :=
  match s with
  | EmptyString => EmptyString
  | String c s' =>
      let n := N_of_ascii c in
      String (hexDigit (n / 16)) (String (hexDigit (n mod 16)) (sprintf_x s'))
  end.

End GoErrors.
Export GoErrors.

(** [ErrInvalidAuthRequest] is returned by [ValidateCallback] when the auth
    attempt is invalid, as stated by steam's auth servers. *)
Definition ErrInvalidAuthRequest : error :=
  GoErrors.New "invalid authentication attempt".

(** [ErrNoData] is returned by [GetSteamUser] if steam doesn't return any
    data about the provided steamid64. *)
Definition ErrNoData : error :=
  GoErrors.New "steam did not return any data about the provided user".

(** ** Package [net/url] *)

Module NetUrl.
Import GoStrings.

(** *** Query escaping *)

Definition isAlnum (c : ascii) : bool :=
  let n := N_of_ascii c in
  ((97 <=? n) && (n <=? 122) || (65 <=? n) && (n <=? 90) ||
   (48 <=? n) && (n <=? 57))%N.

(** [shouldEscape c encodeQueryComponent]: everything but the unreserved
    characters of RFC 3986 is escaped in a query component. *)
Definition shouldEscape (c : ascii) : bool :=
  negb (isAlnum c || Ascii.eqb c "-" || Ascii.eqb c "_" ||
        Ascii.eqb c "." || Ascii.eqb c "~").

(** The digits of ["0123456789ABCDEF"]. *)
Definition upperhex (n : N) : ascii :=
  if (n <? 10)%N then ascii_of_N (48 + n) else ascii_of_N (55 + n).

(** [url.QueryEscape]: a space becomes [+], any other escaped byte
    becomes [%XX]. *)
Fixpoint QueryEscape (s : string) : string :=
  match s with
  | EmptyString => EmptyString
  | String c s' =>
      if shouldEscape c then
        if Ascii.eqb c " " then String "+" (QueryEscape s')
        else
          let n := N_of_ascii c in
          String "%" (String (upperhex (n / 16))
                        (String (upperhex (n mod 16)) (QueryEscape s')))
      else String c (QueryEscape s')
  end.

Definition ishex (c : ascii) : bool :=
  let n := N_of_ascii c in
  ((48 <=? n) && (n <=? 57) || (97 <=? n) && (n <=? 102) ||
   (65 <=? n) && (n <=? 70))%N.

Definition unhex (c : ascii) : N :=
  let n := N_of_ascii c in
  if ((48 <=? n) && (n <=? 57))%N then (n - 48)%N
  else if ((97 <=? n) && (n <=? 102))%N then (n - 97 + 10)%N
  else if ((65 <=? n) && (n <=? 70))%N then (n - 65 + 10)%N
  else 0%N.

(** [url.QueryUnescape]: [%AB] becomes the byte [0xAB] and [+] a space;
    [None] stands for the [EscapeError] of a [%] that two hexadecimal
    digits do not follow. *)
Fixpoint QueryUnescape (s : string) : option string :=
  match s with
  | EmptyString => Some EmptyString
  | String c rest =>
      if Ascii.eqb c "%" then
        match rest with
        | String a (String b rest') =>
            if ishex a && ishex b then
              String (ascii_of_N (unhex a * 16 + unhex b)) <$> QueryUnescape rest'
            else None
        | _ => None
        end
      else if Ascii.eqb c "+" then String " " <$> QueryUnescape rest
      else String c <$> QueryUnescape rest
  end.

(** *** [url.Values], a [map[string][]string] *)

Abbreviation Values := (gmap string (list string)).

(** [v.Get(key)]: the first value of [key], or [""]. *)
Definition Get (v : Values) (key : string) : string :=
  match v !! key with
  | Some (x :: _) => x
  | _ => EmptyString
  end.

(** [v.Set(key, value)]: [v[key] = []string{value}]. *)
Definition Set_ (v : Values) (key value : string) : Values :=
  <[key := [value]]> v.

(** [m[key] = append(m[key], value)]. *)
Definition Add (v : Values) (key value : string) : Values :=
  <[key := (default [] (v !! key) ++ [value])%list]> v.

(** The keys of [v] after [slices.Sort]: Go orders strings byte by byte,
    which is [String.le]. *)
Definition sortedKeys (v : Values) : list string :=
  merge_sort String.le (map_to_list v).*1.

(** One turn of the inner loop of [Encode]: an ampersand unless the
    buffer is empty, then [key=value]. *)
Definition writePair (keyEscaped : string) (buf value : string) : string :=
  (if (0 <? String.length buf)%nat then buf +:+ "&" else buf)
    +:+ keyEscaped +:+ "=" +:+ QueryEscape value.

(** [v.Encode()]: ["k1=v1&k2=v2"], keys sorted, every part escaped. *)
Definition Encode (v : Values) : string :=
  if decide (size v = 0%nat) then EmptyString
  else
    foldl (λ buf k, foldl (writePair (QueryEscape k)) buf (default [] (v !! k)))
          EmptyString (sortedKeys v).

(** The body of the loop of [parseQuery] for one [&]-separated piece.
    The flag tells whether the piece was rejected. *)
Definition parsePiece (m : Values) (piece : string) : Values * bool :=
  if ContainsByte piece ";" then (m, true)
  else if String.eqb piece EmptyString then (m, false)
  else
    let '(key, value, _) := Cut piece "=" in
    match QueryUnescape key with
    | None => (m, true)
    | Some key =>
        match QueryUnescape value with
        | None => (m, true)
        | Some value => (Add m key value, false)
        end
    end.

(** [url.ParseQuery]: the loop cuts the query at each [&], which visits
    the pieces of [Split query "&"] in order.  The result is the map and
    whether some piece was rejected (the error Go returns with the map). *)
Definition ParseQuery (query : string) : Values * bool :=
  foldl (λ '(m, bad) piece, let '(m', b) := parsePiece m piece in (m', bad || b))
        (∅, false) (Split query "&").

(** *** [url.URL] *)

(** The fields the package reads or writes.  [User] is always nil here. *)
Record URL : Type := mkURL {
  Scheme : string;
  Opaque : string;
  Host : string;
  Path : string;
  ForceQuery : bool;
  RawQuery : string;
  Fragment : string
}.

(** [u.Query()] is [ParseQuery(u.RawQuery)] with the error dropped. *)
Definition Query (u : URL) : Values := (ParseQuery (RawQuery u)).1.

Definition withRawQuery (u : URL) (q : string) : URL :=
  mkURL (Scheme u) (Opaque u) (Host u) (Path u) (ForceQuery u) q (Fragment u).

Definition isEmpty (s : string) : bool := String.eqb s EmptyString.

(** [u.String()] for a URL without user information.  Host and path are
    written as they are: the hosts and paths of this package hold only
    letters, digits, [.] and [/], which no escaping touches. *)
Definition String_ (u : URL) : string :=
  let buf := if isEmpty (Scheme u) then EmptyString else Scheme u +:+ ":" in
  let buf :=
    if negb (isEmpty (Opaque u)) then buf +:+ Opaque u
    else
      let buf :=
        if negb (isEmpty (Scheme u)) || negb (isEmpty (Host u)) then
          (if negb (isEmpty (Host u)) || negb (isEmpty (Path u))
           then buf +:+ "//" else buf) +:+ Host u
        else buf in
      let buf :=
        if negb (isEmpty (Path u)) && negb (HasPrefix (Path u) "/")
           && negb (isEmpty (Host u))
        then buf +:+ "/" else buf in
      let buf :=
        if isEmpty buf && ContainsByte (Cut (Path u) "/").1.1 ":"
        then buf +:+ "./" else buf in
      buf +:+ Path u in
  let buf :=
    if ForceQuery u || negb (isEmpty (RawQuery u))
    then buf +:+ "?" +:+ RawQuery u else buf in
  if negb (isEmpty (Fragment u)) then buf +:+ "#" +:+ Fragment u else buf.

Definition isLetter (c : ascii) : bool :=
  let n := N_of_ascii c in
  ((97 <=? n) && (n <=? 122) || (65 <=? n) && (n <=? 90))%N.

Definition isSchemeByte (c : ascii) : bool :=
  let n := N_of_ascii c in
  ((48 <=? n) && (n <=? 57))%N || Ascii.eqb c "+" || Ascii.eqb c "-"
  || Ascii.eqb c ".".

Definition toLowerByte (c : ascii) : ascii :=
  let n := N_of_ascii c in
  if ((65 <=? n) && (n <=? 90))%N then ascii_of_N (n + 32) else c.

Fixpoint ToLower (s : string) : string :=
  match s with
  | EmptyString => EmptyString
  | String c s' => String (toLowerByte c) (ToLower s')
  end.

(** The loop of [getScheme] from position [i]: [inr (Some (scheme, rest))]
    at a colon, [inr None] when the text has no scheme, [inl] for a colon
    at position 0. *)
Fixpoint scanScheme (first : bool) (s : string)
  : string + option (string * string) :=
  match s with
  | EmptyString => inr None
  | String c s' =>
      if isLetter c then
        match scanScheme false s' with
        | inr (Some (scheme, rest)) => inr (Some (String c scheme, rest))
        | other => other
        end
      else if isSchemeByte c then
        if first then inr None
        else match scanScheme false s' with
             | inr (Some (scheme, rest)) => inr (Some (String c scheme, rest))
             | other => other
             end
      else if Ascii.eqb c ":" then
        if first then inl "missing protocol scheme"
        else inr (Some (EmptyString, s'))
      else inr None
  end.

(** [getScheme rawURL]: the scheme and what follows its colon. *)
Definition getScheme (rawURL : string) : string + (string * string) :=
  match scanScheme true rawURL with
  | inl msg => inl msg
  | inr (Some (scheme, rest)) => inr (scheme, rest)
  | inr None => inr (EmptyString, rawURL)
  end.

(** [stringContainsCTLByte]: a byte below [0x20], or [0x7f]. *)
Fixpoint stringContainsCTLByte (s : string) : bool :=
  match s with
  | EmptyString => false
  | String c s' =>
      let n := N_of_ascii c in
      (n <? 32)%N || (n =? 127)%N || stringContainsCTLByte s'
  end.

Fixpoint Count (s : string) (c : ascii) : nat :=
  match s with
  | EmptyString => 0%nat
  | String d s' => ((if Ascii.eqb d c then 1 else 0) + Count s' c)%nat
  end.

Fixpoint HasSuffixByte (s : string) (c : ascii) : bool :=
  match s with
  | EmptyString => false
  | String d EmptyString => Ascii.eqb d c
  | String _ s' => HasSuffixByte s' c
  end.

Fixpoint dropLast (s : string) : string :=
  match s with
  | EmptyString => EmptyString
  | String _ EmptyString => EmptyString
  | String d s' => String d (dropLast s')
  end.

(** The text up to the first [c], and the text from that [c] on. *)
Fixpoint splitBefore (s : string) (c : ascii) : string * string :=
  match s with
  | EmptyString => (EmptyString, EmptyString)
  | String d s' =>
      if Ascii.eqb d c then (EmptyString, s)
      else let '(a, b) := splitBefore s' c in (String d a, b)
  end.

(** [parse rawURL false] for a URL whose authority is a plain host name
    (no user information, port or IP literal) and whose host and path
    hold no percent escape; authority and path are then taken as
    written. *)
Definition parse (rawURL : string) : string + URL :=
  if stringContainsCTLByte rawURL
  then inl "net/url: invalid control character in URL"
  else if String.eqb rawURL "*"
  then inr (mkURL "" "" "" "*" false "" "")
  else
    match getScheme rawURL with
    | inl msg => inl msg
    | inr (scheme, rest) =>
        let scheme := ToLower scheme in
        let '(rest, force, rawQuery) :=
          if HasSuffixByte rest "?" && (Count rest "?" =? 1)%nat
          then (dropLast rest, true, EmptyString)
          else let '(r, q, _) := Cut rest "?" in (r, false, q) in
        if negb (HasPrefix rest "/") && negb (isEmpty scheme)
        then inr (mkURL scheme rest "" "" force rawQuery "")
        else if negb (HasPrefix rest "/")
                && ContainsByte (Cut rest "/").1.1 ":"
        then inl "first path segment in URL cannot contain colon"
        else if (negb (isEmpty scheme) || negb (HasPrefix rest "///"))
                && HasPrefix rest "//"
        then
          let '(authority, path) :=
            splitBefore (String.substring 2 (String.length rest - 2) rest) "/" in
          inr (mkURL scheme "" authority path force rawQuery "")
        else inr (mkURL scheme "" "" rest force rawQuery "")
    end.

(** [url.Parse]: the fragment is cut off first; a failure is reported as
    a [*url.Error] with operation ["parse"]. *)
Definition Parse (rawURL : string) : error + URL :=
  let '(u, frag, _) := Cut rawURL "#" in
  match parse u with
  | inl msg => inl (external ("parse " +:+ quote +:+ u +:+ quote +:+ ": " +:+ msg))
  | inr url =>
      inr (mkURL (Scheme url) (Opaque url) (Host url) (Path url)
             (ForceQuery url) (RawQuery url) frag)
  end.

End NetUrl.

(** ** Package [encoding/json] *)

Module EncodingJson.

(** A JSON text as the value it denotes.  Members of an object keep the
    order of the text, and a name may occur more than once.  A number
    written as an integer literal is [JInt]; any other number keeps its
    literal. *)
Inductive json : Type :=
| JNull
| JBool (b : bool)
| JInt (n : Z)
| JFloat (literal : string)
| JString (s : string)
| JArray (elements : list json)
| JObject (members : list (string * json)).

(** Go's [int] on a 64-bit platform. *)
Definition fitsInt (n : Z) : bool := (- 2 ^ 63 <=? n) && (n <? 2 ^ 63).

(** A decoding step gives a value, or [None] for a JSON value that does
    not fit the Go type (an [UnmarshalTypeError]). *)
Definition mapResult {A B} (f : A → B) (r : option A) : option B :=
  match r with
  | None => None
  | Some a => Some (f a)
  end.

(** Decoding into a [string]: [null] leaves the field as it is. *)
Definition decodeString (j : json) (cur : string) : option string :=
  match j with
  | JNull => Some cur
  | JString s => Some s
  | _ => None
  end.

(** Decoding into an [int]: the literal must be an integer that fits. *)
Definition decodeInt (j : json) (cur : Z) : option Z :=
  match j with
  | JNull => Some cur
  | JInt n => if fitsInt n then Some n else None
  | _ => None
  end.

Definition toUpperByte (c : ascii) : ascii :=
  let n := N_of_ascii c in
  if ((97 <=? n) && (n <=? 122))%N then ascii_of_N (n - 32) else c.

(** [foldName]: ASCII letters go to upper case; of the other runes only
    U+017F (long s, bytes C5 BF) and U+212A (Kelvin sign, bytes E2 84 AA)
    fold to an ASCII letter.  Other bytes are kept, which cannot make a
    name equal to the fold of an ASCII name. *)
Fixpoint foldName (s : string) : string :=
  match s with
  | EmptyString => EmptyString
  | String c rest =>
      match rest with
      | String d rest' =>
          if Ascii.eqb c "197" && Ascii.eqb d "191"
          then String "S" (foldName rest')
          else
            match rest' with
            | String e rest'' =>
                if Ascii.eqb c "226" && Ascii.eqb d "132" && Ascii.eqb e "170"
                then String "K" (foldName rest'')
                else String (toUpperByte c) (foldName rest)
            | EmptyString => String (toUpperByte c) (foldName rest)
            end
      | EmptyString => String (toUpperByte c) EmptyString
      end
  end.

(** The field a member name selects among [fields]: the one whose name
    it is, else the first whose name folds as it does. *)
Definition selectField {F} (name : F → string) (fields : list F)
    (key : string) : option F :=
  match List.find (λ f, String.eqb (name f) key) fields with
  | Some f => Some f
  | None =>
      List.find (λ f, String.eqb (foldName (name f)) (foldName key)) fields
  end.

(** Decoding the members of an object one after the other into a struct
    value.  A type error makes the whole decoding an error. *)
Fixpoint decodeMembers {F S} (name : F → string) (fields : list F)
    (set : F → json → S → option S)
    (members : list (string * json)) (cur : S) : option S :=
  match members with
  | [] => Some cur
  | (key, value) :: members' =>
      match selectField name fields key with
      | None => decodeMembers name fields set members' cur
      | Some f =>
          match set f value cur with
          | None => None
          | Some cur' => decodeMembers name fields set members' cur'
          end
      end
  end.

(** Decoding into a struct: an object fills the fields its members
    select, [null] changes nothing, anything else is a type error. *)
Definition decodeStruct {F S} (name : F → string)
    (fields : list F) (set : F → json → S → option S)
    (j : json) (cur : S) : option S :=
  match j with
  | JNull => Some cur
  | JObject members => decodeMembers name fields set members cur
  | _ => None
  end.

(** Decoding the elements of an array into the array of a slice: the
    element at each index is decoded into what the array holds there, and
    into a zero value past what was ever written.  The result is the
    decoded elements and what the array holds after them. *)
Fixpoint decodeElements {S} (decode : json → S → option S) (zero : S)
    (elements : list json) (array : list S) : option (list S * list S) :=
  match elements with
  | [] => Some ([], array)
  | e :: elements' =>
      let '(cur, array') :=
        match array with
        | held :: array' => (held, array')
        | [] => (zero, [])
        end in
      match decode e cur with
      | None => None
      | Some x =>
          match decodeElements decode zero elements' array' with
          | None => None
          | Some (xs, rest) => Some (x :: xs, rest)
          end
      end
  end.

(** Decoding into a slice.  [null] makes it nil and an empty array makes
    it a new empty slice.  Any other array is decoded element by element
    into the elements the slice has, the slice being made longer or
    shorter to the length of the array. *)
Definition decodeSlice {S} (decode : json → S → option S) (zero : S)
    (j : json) (cur : slice S) : option (slice S) :=
  match j with
  | JNull => Some (mkSlice [] [])
  | JArray [] => Some (mkSlice [] [])
  | JArray elements =>
      match decodeElements decode zero elements (items cur ++ beyond cur)%list with
      | None => None
      | Some (xs, rest) => Some (mkSlice xs rest)
      end
  | _ => None
  end.

End EncodingJson.

Infix "<$$>" := EncodingJson.mapResult (at level 61, left associativity).

(** ** Package [net/http] *)

Module NetHttp.

(** A request as the package makes it. *)
Record Request : Type := mkRequest {
  Method : string;
  Target : string;
  ContentType : string;
  Payload : string
}.

(** A response body is a stream: the bytes it yields and the error, if
    any, that ends the reading. *)
Record ReadCloser : Type := mkBody {
  content : string;
  failure : option string
}.

Record Response : Type := mkResponse {
  Status : string;
  StatusCode : Z;
  Body : ReadCloser
}.

(** What the default client answers to a request, given the requests
    made before: the text of a [*url.Error], or the response, whatever
    its status. *)
Definition RoundTripper : Type := list Request → Request → string + Response.

(** [io.ReadAll]: what was read, and the error that stopped the reading. *)
Definition ReadAll (r : ReadCloser) : string * option error :=
  (content r, external <$> failure r).

End NetHttp.

(** ** The package [gosteamauth] *)

Import GoStrings NetUrl EncodingJson NetHttp.

(** *** [user.go] *)

Definition PersonaStateOffline : Z := 0.
Definition PersonaStateOnline : Z := 1.
Definition PersonaStateBusy : Z := 2.
Definition PersonaStateAway : Z := 3.
Definition PersonaStateSnooze : Z := 4.
Definition PersonaStateLookingToTrade : Z := 5.
Definition PersonaStateLookingToPlay : Z := 6.

Definition ProfileStateConfigured : Z := 1.
Definition ProfileStateNotConfigured : Z := 0.

Definition CommunityVisibilityStatusNotVisible : Z := 1.
Definition CommunityVisibilityStatusPublic : Z := 3.

(** [SteamUser] is a steam user, as represented in the response from the
    GetPlayerSummaries web api. *)
Record SteamUser : Type := mkSteamUser {
  SteamID : string;
  PersonaName : string;
  PersonaState : Z;
  ProfileUrl : string;
  ProfileState : Z;
  CommunityVisibilityStatus : Z;
  Avatar : string;
  AvatarMedium : string;
  AvatarFull : string
}.

(** The zero value of the struct. *)
Definition zeroSteamUser : SteamUser := mkSteamUser "" "" 0 "" 0 0 "" "" "".

(** The fields of [SteamUser], in the order of the declaration. *)
Inductive Field : Type :=
| fSteamID | fPersonaName | fPersonaState | fProfileUrl | fProfileState
| fCommunityVisibilityStatus | fAvatar | fAvatarMedium | fAvatarFull.

Definition steamUserFields : list Field :=
  [fSteamID; fPersonaName; fPersonaState; fProfileUrl; fProfileState;
   fCommunityVisibilityStatus; fAvatar; fAvatarMedium; fAvatarFull].

(** The [json:"..."] tag of each field. *)
Definition jsonTag (f : Field) : string :=
  match f with
  | fSteamID => "steamid"
  | fPersonaName => "personaname"
  | fPersonaState => "personastate"
  | fProfileUrl => "profileurl"
  | fProfileState => "profilestate"
  | fCommunityVisibilityStatus => "communityvisibilitystate"
  | fAvatar => "avatar"
  | fAvatarMedium => "avatarmedium"
  | fAvatarFull => "avatarfull"
  end.

(** Decoding a JSON value into one field of a [SteamUser]. *)
Definition setSteamUserField (f : Field) (j : json) (u : SteamUser)
  : option SteamUser :=
  let '(mkSteamUser id name state url pstate vis av avm avf) := u in
  match f with
  | fSteamID =>
      (λ x, mkSteamUser x name state url pstate vis av avm avf) <$$> decodeString j id
  | fPersonaName =>
      (λ x, mkSteamUser id x state url pstate vis av avm avf) <$$> decodeString j name
  | fPersonaState =>
      (λ x, mkSteamUser id name x url pstate vis av avm avf) <$$> decodeInt j state
  | fProfileUrl =>
      (λ x, mkSteamUser id name state x pstate vis av avm avf) <$$> decodeString j url
  | fProfileState =>
      (λ x, mkSteamUser id name state url x vis av avm avf) <$$> decodeInt j pstate
  | fCommunityVisibilityStatus =>
      (λ x, mkSteamUser id name state url pstate x av avm avf) <$$> decodeInt j vis
  | fAvatar =>
      (λ x, mkSteamUser id name state url pstate vis x avm avf) <$$> decodeString j av
  | fAvatarMedium =>
      (λ x, mkSteamUser id name state url pstate vis av x avf) <$$> decodeString j avm
  | fAvatarFull =>
      (λ x, mkSteamUser id name state url pstate vis av avm x) <$$> decodeString j avf
  end.

(** Decoding a JSON value into a [SteamUser]. *)
Definition decodeSteamUser (j : json) (cur : SteamUser) : option SteamUser :=
  decodeStruct jsonTag steamUserFields setSteamUserField j cur.

(** The anonymous struct [GetSteamUser] decodes the body into:
    [struct { Response struct { Players []SteamUser } }]. *)
Record responseData : Type := mkResponseData { Players : slice SteamUser }.
Record data : Type := mkData { Response_ : responseData }.

Definition zeroData : data := mkData (mkResponseData (mkSlice [] [])).

Definition decodeResponseData (j : json) (cur : responseData)
  : option responseData :=
  decodeStruct (λ _ : unit, "players") [tt]
    (λ _ v r, mkResponseData <$$>
                decodeSlice decodeSteamUser zeroSteamUser v (Players r))
    j cur.

Definition decodeData (j : json) (cur : data) : option data :=
  decodeStruct (λ _ : unit, "response") [tt]
    (λ _ v d, mkData <$$> decodeResponseData v (Response_ d))
    j cur.

(** What [encoding/json] does with a body beyond the decoding above: the
    first JSON value its scanner reads off the body (or the text of the
    syntax or read error that ends the scanning), and the text of the
    [UnmarshalTypeError] it returns when that value does not fit. *)
Record Decoder : Type := mkDecoder {
  scanned :> ReadCloser → string + json;
  typeErrorText : ReadCloser → string
}.

(** *** [auth.go] *)

(** [SteamAuther] provides methods to handle authentication for steam
    users. *)
Record SteamAuther : Type := mkSteamAuther {
  apiKey : string;
  realm : string
}.

(** [New] returns a new SteamAuther with the provided options. *)
Definition New (apiKey realm : string) : SteamAuther :=
  {| apiKey := apiKey; realm := realm |}.

(** [OpenIdLoginUrl] is from https://steamcommunity.com/openid/. *)
Definition OpenIdLoginUrl : string := "https://steamcommunity.com/openid/login".

(** What a method call can reach and change: the struct its receiver
    points to, the map its [url.Values] argument refers to ([None] is the
    nil map; the caller holds the same map), and the requests that have
    gone out. *)
Record State : Type := mkState {
  receiver : SteamAuther;
  vals : option Values;
  sent : list Request
}.

(** A call returns a value and a state, or panics. *)
Inductive Outcome (A : Type) : Type :=
| Returned (a : A) (σ : State)
| Panicked (reason : string).
Arguments Returned {A} a σ.
Arguments Panicked {A} reason.

Definition Go (A : Type) : Type := State → Outcome A.

#[global] Instance Go_ret : MRet Go := λ A a σ, Returned a σ.

#[global] Instance Go_bind : MBind Go := λ A B f m σ,
  match m σ with
  | Returned a σ' => f a σ'
  | Panicked reason => Panicked reason
  end.

(** [sa] dereferenced. *)
Definition self : Go SteamAuther := λ σ, Returned (receiver σ) σ.

(** [vals.Get(key)]; reading a nil map gives the zero value. *)
Definition valsGet (key : string) : Go string := λ σ,
  Returned (match vals σ with Some m => Get m key | None => EmptyString end) σ.

(** [vals.Set(key, value)] writes into the map [vals] refers to. *)
Definition valsSet (key value : string) : Go unit := λ σ,
  match vals σ with
  | Some m => Returned tt (mkState (receiver σ) (Some (Set_ m key value)) (sent σ))
  | None => Panicked "assignment to entry in nil map"
  end.

(** [vals.Encode()]. *)
Definition valsEncode : Go string := λ σ,
  Returned (match vals σ with Some m => Encode m | None => EmptyString end) σ.

(** [p[i]]. *)
Definition elementAt {A} (p : list A) (i : Z) : Go A := λ σ,
  match index p i with
  | InRange a => Returned a σ
  | IndexOutOfRange => Panicked "index out of range"
  end.

(** [fmt.Errorf] for a format that ends in [%w]. *)
Definition Errorf_w (text : string) (err : error) : error :=
  wrapError (text +:+ Error err) err.

Section Client.

(** The network behind [http.DefaultClient]. *)
Variable transport : RoundTripper.

(** The scanner of [encoding/json] and the texts of its type errors. *)
Variable scan : Decoder.

(** One request goes out and is answered. *)
Definition roundTrip (rq : Request) : Go (error + Response) := λ σ,
  Returned (match transport (sent σ) rq with
            | inl text => inl (external text)
            | inr res => inr res
            end)
           (mkState (receiver σ) (vals σ) (sent σ ++ [rq])%list).

(** [http.Post(url, contentType, body)]. *)
Definition Post (url contentType body : string) : Go (error + Response) :=
  roundTrip (mkRequest "POST" url contentType body).

(** [http.Get(url)]. *)
Definition Get_ (url : string) : Go (error + Response) :=
  roundTrip (mkRequest "GET" url "" "").

(** [json.NewDecoder(body).Decode(&data)] for [data] at its zero value. *)
Definition Decode (body : ReadCloser) : error + data :=
  match scan body with
  | inl msg => inl (external msg)
  | inr j =>
      match decodeData j zeroData with
      | None => inl (external (typeErrorText scan body))
      | Some d => inr d
      end
  end.

(** The query [GetAuthUrl] sets up on the parsed endpoint. *)
Definition authQuery (sa : SteamAuther) (u : URL) (returnUrl : string) : Values :=
  let q := Query u in
  let q := Set_ q "openid.ns" "http://specs.openid.net/auth/2.0" in
  let q := Set_ q "openid.mode" "checkid_setup" in
  let q := Set_ q "openid.realm" (realm sa) in
  let q := Set_ q "openid.return_to" returnUrl in
  let q := Set_ q "openid.claimed_id"
             "http://specs.openid.net/auth/2.0/identifier_select" in
  Set_ q "openid.identity" "http://specs.openid.net/auth/2.0/identifier_select".

(** [GetAuthUrl] after [url.Parse(OpenIdLoginUrl)] has answered. *)
Definition authUrlFrom (parsed : error + URL) (sa : SteamAuther)
    (returnUrl : string) : string * option error :=
  match parsed with
  | inl err =>
      (EmptyString,
       Some (Errorf_w ("get redirect url (returnUrl=" +:+ quote +:+ returnUrl
                       +:+ quote +:+ "): ") err))
  | inr u =>
      let u := withRawQuery u (Encode (authQuery sa u returnUrl)) in
      (String_ u, None)
  end.

(** [GetAuthUrl] generates an OpenID2 URL to redirect the user to in
    order to start the authentication process. *)
Definition GetAuthUrl (returnUrl : string) : Go (string * option error) :=
  sa ← self;
  mret (authUrlFrom (Parse OpenIdLoginUrl) sa returnUrl).

(** [ValidateCallback] is used to validate the callback at the end of an
    openid2 flow.  This returns the steamid64 or an error.
    ([defer res.Body.Close()] changes nothing that is modelled.) *)
Definition ValidateCallback : Go (string * option error) :=
  mode ← valsGet "openid.mode";
  if negb (String.eqb mode "id_res") then
    got ← valsGet "openid.mode";
    mret (EmptyString,
          Some (fmtError ("the openid.mode was not expected. got="
                          +:+ sprintf_x got +:+ ", expected=id_res")))
  else
    valsSet "openid.mode" "check_authentication";;
    payload ← valsEncode;
    reply ← Post OpenIdLoginUrl "application/x-www-form-urlencoded" payload;
    match reply with
    | inl err =>
        mret (EmptyString,
              Some (Errorf_w "validate callback: failed making validation request: " err))
    | inr res =>
        let '(bodyBytes, err) := ReadAll (Body res) in
        match err with
        | Some err =>
            mret (EmptyString,
                  Some (Errorf_w "validate callback: read all bytes: " err))
        | None =>
            if negb (Contains bodyBytes "is_valid:true") then
              mret (EmptyString, Some ErrInvalidAuthRequest)
            else
              claimed ← valsGet "openid.claimed_id";
              let p := Split claimed "/" in
              steamid ← elementAt p (len p - 1);
              mret (steamid, None)
        end
    end.

(** The start of the messages of [GetSteamUser]. *)
Definition getSteamUserPrefix (steamid64 : string) : string :=
  "get steam user (" +:+ steamid64 +:+ "): ".

(** [GetSteamUser] gets the steamid user with the steamid64 provided and
    returns some basic information about them. *)
Definition GetSteamUser (steamid64 : string)
  : Go (option SteamUser * option error) :=
  sa ← self;
  match Parse "http://api.steampowered.com/ISteamUser/GetPlayerSummaries/v0002" with
  | inl err =>
      mret (None, Some (Errorf_w (getSteamUserPrefix steamid64 +:+ "parse api url: ") err))
  | inr u =>
      let q := Query u in
      let q := Set_ q "key" (apiKey sa) in
      let q := Set_ q "steamids" steamid64 in
      let u := withRawQuery u (Encode q) in
      let reqUrl := String_ u in
      reply ← Get_ reqUrl;
      match reply with
      | inl err =>
          mret (None, Some (Errorf_w (getSteamUserPrefix steamid64 +:+ "make get request: ") err))
      | inr res =>
          if negb (StatusCode res =? 200) then
            mret (None,
                  Some (fmtError (getSteamUserPrefix steamid64
                                  +:+ "status code is not 200 (" +:+ Status res +:+ ")")))
          else
            match Decode (Body res) with
            | inl err =>
                mret (None, Some (Errorf_w (getSteamUserPrefix steamid64 +:+ "decode response body: ") err))
            | inr d =>
                if len (items (Players (Response_ d))) <? 1
                then mret (None, Some ErrNoData)
                else
                  first ← elementAt (items (Players (Response_ d))) 0;
                  mret (Some first, None)
            end
      end
  end.

End Client.

(** *** Vocabulary of the statements *)

(** The value of a callback parameter in the caller's map. *)
Definition param (σ : State) (key : string) : string :=
  match vals σ with
  | Some m => Get m key
  | None => EmptyString
  end.

(** The final [/]-separated segment of a text. *)
Definition lastSegment (s : string) : string :=
  List.last (Split s "/") EmptyString.

(** The map of the confirmation: the callback with its mode overwritten. *)
Definition confirmationValues (m : Values) : Values :=
  <["openid.mode" := ["check_authentication"]]> m.

(** The confirmation request for a callback [m]. *)
Definition confirmationRequest (m : Values) : Request :=
  mkRequest "POST" OpenIdLoginUrl "application/x-www-form-urlencoded"
    (Encode (confirmationValues m)).

(** The state once the confirmation for [m] has gone out. *)
Definition afterConfirmation (σ : State) (m : Values) : State :=
  mkState (receiver σ) (Some (confirmationValues m))
    (sent σ ++ [confirmationRequest m])%list.

(** The profile request for an identifier. *)
Definition profileRequest (sa : SteamAuther) (steamid64 : string) : Request :=
  mkRequest "GET"
    (String_ (mkURL "http" "" "api.steampowered.com"
                "/ISteamUser/GetPlayerSummaries/v0002" false
                (Encode (Set_ (Set_ ∅ "key" (apiKey sa)) "steamids" steamid64))
                ""))
    "" "".

(** The state once a request has gone out. *)
Definition afterRequest (σ : State) (rq : Request) : State :=
  mkState (receiver σ) (vals σ) (sent σ ++ [rq])%list.

(** The text of the confirmation response, when the POST is answered and
    the body is read to its end; [None] for a transport or read failure. *)
Definition confirmationBody (transport : RoundTripper) (log : list Request)
    (m : Values) : option string :=
  match transport log (confirmationRequest m) with
  | inl _ => None
  | inr res =>
      match failure (Body res) with
      | Some _ => None
      | None => Some (content (Body res))
      end
  end.

(** What a call returned, if it did not panic. *)
Definition returned {A} (o : Outcome A) : option A :=
  match o with
  | Returned a _ => Some a
  | Panicked _ => None
  end.

(** The state a call left, if it did not panic. *)
Definition stateAfter {A} (o : Outcome A) : option State :=
  match o with
  | Returned _ σ => Some σ
  | Panicked _ => None
  end.

(** The values of a key in the caller's map. *)
Definition entry (σ : State) (key : string) : option (list string) :=
  match vals σ with
  | Some m => m !! key
  | None => None
  end.

(** The JSON value that stands for a field of a profile. *)
Definition playerValue (f : Field) (u : SteamUser) : json :=
  match f with
  | fSteamID => JString (SteamID u)
  | fPersonaName => JString (PersonaName u)
  | fPersonaState => JInt (PersonaState u)
  | fProfileUrl => JString (ProfileUrl u)
  | fProfileState => JInt (ProfileState u)
  | fCommunityVisibilityStatus => JInt (CommunityVisibilityStatus u)
  | fAvatar => JString (Avatar u)
  | fAvatarMedium => JString (AvatarMedium u)
  | fAvatarFull => JString (AvatarFull u)
  end.

(** The value of the first member of an object with a given name. *)
Definition memberValue (members : list (string * json)) (key : string)
  : option json :=
  snd <$> List.find (λ kv, String.eqb kv.1 key) members.

(** The fields of [SteamUser] that the members of an object select, in
    the order of the members. *)
Definition addressed (members : list (string * json)) : list Field :=
  omap (λ kv, selectField jsonTag steamUserFields kv.1) members.

#[global] Instance Field_eq_dec : EqDecision Field.
Proof. solve_decision. Defined.

(** Two JSON values are the same string or the same integer. *)
Definition sameScalar (a b : json) : bool :=
  match a, b with
  | JString x, JString y => String.eqb x y
  | JInt x, JInt y => x =? y
  | _, _ => false
  end.

(** A player object is well formed for a profile [u]: under each
    documented name it holds the value of that field of [u] (a string, or
    an integer that fits an [int]), and no two of its members select the
    same field. *)
Definition wellFormedPlayer (members : list (string * json)) (u : SteamUser)
  : bool :=
  forallb (λ f, match memberValue members (jsonTag f) with
                | Some v => sameScalar v (playerValue f u)
                | None => false
                end) steamUserFields
  && bool_decide (NoDup (addressed members))
  && fitsInt (PersonaState u) && fitsInt (ProfileState u)
  && fitsInt (CommunityVisibilityStatus u).

(** The integer fields of a profile fit Go's [int]. *)
Definition fits (u : SteamUser) : Prop :=
  fitsInt (PersonaState u) = true ∧ fitsInt (ProfileState u) = true
  ∧ fitsInt (CommunityVisibilityStatus u) = true.

(** The envelope of the profile API around a list of players. *)
Definition envelope (players : list json) : json :=
  JObject [("response", JObject [("players", JArray players)])].

(** A call of one of the three methods; [ValidateCallback] comes with the
    map it is given. *)
Inductive Call : Type :=
| CallGetAuthUrl (returnUrl : string)
| CallValidateCallback (v : option Values)
| CallGetSteamUser (steamid64 : string).

(** The caller passes a map to the next call. *)
Definition pass (v : option Values) : Go unit := λ σ,
  Returned tt (mkState (receiver σ) v (sent σ)).

(** One call, its results dropped. *)
Definition perform (transport : RoundTripper) (scan : Decoder)
    (c : Call) : Go unit :=
  match c with
  | CallGetAuthUrl returnUrl => _ ← GetAuthUrl returnUrl; mret tt
  | CallValidateCallback v => pass v;; _ ← ValidateCallback transport; mret tt
  | CallGetSteamUser steamid64 => _ ← GetSteamUser transport scan steamid64; mret tt
  end.

(** A sequence of calls on the same [SteamAuther]. *)
Fixpoint performAll (transport : RoundTripper) (scan : Decoder)
    (calls : list Call) : Go unit :=
  match calls with
  | [] => mret tt
  | c :: calls' => perform transport scan c;; performAll transport scan calls'
  end.

(** Every byte of a text passes a test. *)
Fixpoint allBytes (P : ascii → bool) (s : string) : bool :=
  match s with
  | EmptyString => true
  | String c s' => P c && allBytes P s'
  end.

(** The bytes [QueryEscape] can write: the unreserved ones, [%] and [+]. *)
Definition escapedByte (c : ascii) : bool :=
  negb (shouldEscape c) || Ascii.eqb c "%" || Ascii.eqb c "+".

(** The bytes [Encode] can write: those of [QueryEscape], [&] and [=]. *)
Definition encodedByte (c : ascii) : bool :=
  escapedByte c || Ascii.eqb c "&" || Ascii.eqb c "=".

(** The pairs [Encode] writes, in the order it writes them. *)
Definition pairsOf (m : Values) (keys : list string) : list (string * string) :=
  flat_map (λ k, (λ v, (k, v)) <$> default [] (m !! k)) keys.

(** [key=value], escaped. *)
Definition encodePair (kv : string * string) : string :=
  QueryEscape kv.1 +:+ "=" +:+ QueryEscape kv.2.

(** Texts joined by [&]. *)
Fixpoint joinAmp (pieces : list string) : string :=
  match pieces with
  | [] => EmptyString
  | [piece] => piece
  | piece :: pieces' => piece +:+ "&" +:+ joinAmp pieces'
  end.

(** The map [parseQuery] builds from a list of pairs. *)
Definition addAll (m : Values) (pairs : list (string * string)) : Values :=
  foldl (λ acc kv, Add acc kv.1 kv.2) m pairs.

(** The values a list of pairs holds for a key, in order. *)
Definition valuesFor (key : string) (pairs : list (string * string))
  : list string :=
  snd <$> List.filter (λ kv, String.eqb kv.1 key) pairs.

(** *** Sample inputs *)

Definition sampleAuther : SteamAuther := New "0123456789ABCDEF" "http://localhost:8080".

Definition sampleClaimedId : string :=
  "https://steamcommunity.com/openid/id/76561197960287930".

(** A positive assertion as the provider sends it back. *)
Definition sampleCallback : Values :=
  Set_ (Set_ (Set_ ∅ "openid.mode" "id_res")
          "openid.claimed_id" sampleClaimedId)
    "openid.sig" "c2lnbmF0dXJl".

(** A cancelled login. *)
Definition cancelledCallback : Values := Set_ ∅ "openid.mode" "cancel".

(** A network that answers every request in the same way. *)
Definition answering (status : string) (code : Z) (body : string) : RoundTripper :=
  λ _ _, inr (mkResponse status code (mkBody body None)).

(** A network that answers no request. *)
Definition unreachable : RoundTripper :=
  λ _ _, inl "dial tcp: connection refused".

(** A decoder for which no body is JSON. *)
Definition noJson : Decoder :=
  mkDecoder (λ _, inl "invalid character '<' looking for beginning of value")
    (λ _, EmptyString).

(** A profile and the object the API sends for it. *)
Definition sampleUser : SteamUser :=
  mkSteamUser "76561197960287930" "Rabscuttle" PersonaStateOnline
    "https://steamcommunity.com/id/rabscuttle/" ProfileStateConfigured
    CommunityVisibilityStatusPublic
    "https://avatars.steamstatic.com/f1.jpg"
    "https://avatars.steamstatic.com/f1_medium.jpg"
    "https://avatars.steamstatic.com/f1_full.jpg".

Definition samplePlayer : list (string * json) :=
  [("steamid", JString "76561197960287930");
   ("communityvisibilitystate", JInt 3);
   ("profilestate", JInt 1);
   ("personaname", JString "Rabscuttle");
   ("profileurl", JString "https://steamcommunity.com/id/rabscuttle/");
   ("avatar", JString "https://avatars.steamstatic.com/f1.jpg");
   ("avatarmedium", JString "https://avatars.steamstatic.com/f1_medium.jpg");
   ("avatarfull", JString "https://avatars.steamstatic.com/f1_full.jpg");
   ("avatarhash", JString "f1");
   ("lastlogoff", JInt 1700000000);
   ("personastate", JInt 1)].

(** A decoder that reads the same JSON value off every body. *)
Definition reading (j : json) : Decoder :=
  mkDecoder (λ _, inr j)
    (λ _, "json: cannot unmarshal a value into a Go value of another type").

(** *** Vocabulary of the further statements *)

(** [errors.Unwrap err]: what [err] wraps. *)
Definition Unwrap (err : error) : option error :=
  match err with
  | wrapError _ inner => Some inner
  | _ => None
  end.

(** The body of a response, as far as [ValidateCallback] and
    [GetSteamUser] read it. *)
Definition sameBodies (t t' : RoundTripper) : Prop :=
  ∀ log rq,
    match t log rq, t' log rq with
    | inl msg, inl msg' => msg = msg'
    | inr res, inr res' => Body res = Body res'
    | _, _ => False
    end.

(** The fields of [SteamUser] declared [string]. *)
Definition isStringField (f : Field) : bool :=
  match f with
  | fPersonaState | fProfileState | fCommunityVisibilityStatus => false
  | _ => true
  end.

(** The JSON values a field takes without a type error: [null], a string
    for a [string] field, an integer that fits for an [int] field. *)
Definition accepts (f : Field) (v : json) : bool :=
  match v with
  | JNull => true
  | JString _ => isStringField f
  | JInt n => negb (isStringField f) && fitsInt n
  | _ => false
  end.

(** Every member of an object that selects a field holds a value the
    field accepts. *)
Definition acceptedMembers (members : list (string * json)) : bool :=
  forallb (λ kv, match selectField jsonTag steamUserFields kv.1 with
                 | Some f => accepts f kv.2
                 | None => true
                 end) members.

(** A member writes a field: its name selects it and its value is not
    [null]. *)
Definition writes (f : Field) (kv : string * json) : bool :=
  match selectField jsonTag steamUserFields kv.1, kv.2 with
  | _, JNull => false
  | Some g, _ => bool_decide (g = f)
  | None, _ => false
  end.

(** The value of the last member that writes a field, or [start]. *)
Definition lastWritten (f : Field) (members : list (string * json))
    (start : json) : json :=
  foldl (λ acc kv, if writes f kv then kv.2 else acc) start members.

(** No member of an object has a name that folds as [name] does. *)
Definition noMember (name : string) (members : list (string * json)) : bool :=
  forallb (λ kv, negb (String.eqb (foldName kv.1) (foldName name))) members.

(** A request the package makes: the confirmation of some callback, or
    the profile request of [sa] for some identifier. *)
Definition ownRequest (sa : SteamAuther) (rq : Request) : Prop :=
  (∃ m, rq = confirmationRequest m) ∨ (∃ steamid64, rq = profileRequest sa steamid64).

(** *** [examples/auth/auth.go] *)

(** What a handler did with its [http.ResponseWriter] and with standard
    output: the lines it printed, the status it passed to [WriteHeader] if
    it called it, and the bytes it passed to [Write]. *)
Record Reply : Type := mkReply {
  printed : list string;
  wroteHeader : option Z;
  written : string
}.

(** The line feed. *)
Definition newline : string := String "010" EmptyString.

(** An [int] under the verb [%v]. *)
Definition formatInt (n : Z) : string := NilZero.string_of_int (Z.to_int n).

(** A [*SteamUser] under the verb [%v]: [&{...}] around the fields, a
    space between them. *)
Definition formatUser (u : SteamUser) : string :=
  "&{" +:+ SteamID u +:+ " " +:+ PersonaName u +:+ " "
  +:+ formatInt (PersonaState u) +:+ " " +:+ ProfileUrl u +:+ " "
  +:+ formatInt (ProfileState u) +:+ " "
  +:+ formatInt (CommunityVisibilityStatus u) +:+ " " +:+ Avatar u +:+ " "
  +:+ AvatarMedium u +:+ " " +:+ AvatarFull u +:+ "}".

(** The handler of [GET /auth/callback] for a request whose URL has the
    raw query [rawQuery]: [r.URL.Query()] makes a new map from it. *)
Definition authCallbackHandler (transport : RoundTripper)
    (scan : Decoder) (rawQuery : string) : Go Reply :=
  pass (Some (ParseQuery rawQuery).1);;
  validated ← ValidateCallback transport;
  match validated with
  | (_, Some err) => mret (mkReply [Error err +:+ newline] None EmptyString)
  | (steamid, None) =>
      fetched ← GetSteamUser transport scan steamid;
      match fetched with
      | (_, Some err) => mret (mkReply [Error err +:+ newline] None EmptyString)
      | (Some user, None) =>
          mret (mkReply [formatUser user +:+ newline] (Some 200)
                  (PersonaName user +:+ " - " +:+ SteamID user))
      | (None, None) =>
          (λ _, Panicked "invalid memory address or nil pointer dereference")
          : Go Reply
      end
  end.

(** The raw query of a callback as the provider redirects to it. *)
Definition sampleRawQuery : string :=
  "openid.mode=id_res&openid.claimed_id=https%3A%2F%2Fsteamcommunity.com%2Fopenid%2Fid%2F76561197960287930&openid.sig=c2lnbmF0dXJl".

(** ** Facts about [strings] *)

Lemma Split_nonempty (s : string) (sep : ascii) : Split s sep ≠ [].
Proof.
  destruct s as [|c s]; simpl; [discriminate|].
  destruct (Ascii.eqb c sep); [discriminate|].
  destruct (Split s sep); discriminate.
Qed.

Lemma Split_without_separator (s : string) (sep : ascii) :
  ContainsByte s sep = false → Split s sep = [s].
Proof.
  induction s as [|c s IH]; simpl; [reflexivity|].
  intros H. apply orb_false_iff in H as [Hc Hs].
  rewrite Hc, (IH Hs). reflexivity.
Qed.

Lemma index_last {A} (p : list A) (d : A) :
  p ≠ [] → index p (len p - 1) = InRange (List.last p d).
Proof.
  intros Hp. unfold index, len.
  destruct p as [|a p]; [congruence|]. clear Hp.
  replace (Z.of_nat (List.length (a :: p)) - 1 <? 0) with false
    by (symmetry; apply Z.ltb_ge; simpl List.length; lia).
  replace (Z.to_nat (Z.of_nat (List.length (a :: p)) - 1)) with (List.length p)
    by (simpl List.length; lia).
  revert a. induction p as [|b p IH]; intros a; [reflexivity|].
  change (nth_error (a :: b :: p) (List.length (b :: p)))
    with (nth_error (b :: p) (List.length p)).
  rewrite IH. reflexivity.
Qed.

Lemma index_last_segment (s : string) :
  index (Split s "/") (len (Split s "/") - 1) = InRange (lastSegment s).
Proof. apply index_last, Split_nonempty. Qed.

(** ** Facts about [url.Values] *)

Lemma Get_Set_same (m : Values) (key value : string) :
  Get (Set_ m key value) key = value.
Proof. unfold Get, Set_. by rewrite lookup_insert_eq. Qed.

Lemma Get_Set_other (m : Values) (key key' value : string) :
  key ≠ key' → Get (Set_ m key value) key' = Get m key'.
Proof. intros Hne. unfold Get, Set_. by rewrite lookup_insert_ne. Qed.

(** ** [ValidateCallback], branch by branch *)

Ltac run_go :=
  unfold mbind, Go_bind, mret, Go_ret, valsGet, valsSet, valsEncode,
    elementAt, Post, Get_, roundTrip, self; cbn beta iota.

(** A mode other than [id_res]: nothing happens but the error. *)
Lemma ValidateCallback_other_mode transport σ :
  param σ "openid.mode" ≠ "id_res" →
  ValidateCallback transport σ =
  Returned (EmptyString,
            Some (fmtError ("the openid.mode was not expected. got="
                            +:+ sprintf_x (param σ "openid.mode")
                            +:+ ", expected=id_res"))) σ.
Proof.
  intros Hmode. unfold ValidateCallback. run_go. fold (param σ "openid.mode").
  destruct (String.eqb_spec (param σ "openid.mode") "id_res") as [E|_];
    [contradiction|]. reflexivity.
Qed.

(** The mode [id_res]: the map is overwritten, one request goes out, and
    the answer decides. *)
Lemma ValidateCallback_id_res transport σ m :
  vals σ = Some m → Get m "openid.mode" = "id_res" →
  ValidateCallback transport σ =
  match transport (sent σ) (confirmationRequest m) with
  | inl text =>
      Returned (EmptyString,
                Some (Errorf_w "validate callback: failed making validation request: "
                        (external text)))
               (afterConfirmation σ m)
  | inr res =>
      match failure (Body res) with
      | Some text =>
          Returned (EmptyString,
                    Some (Errorf_w "validate callback: read all bytes: " (external text)))
                   (afterConfirmation σ m)
      | None =>
          if Contains (content (Body res)) "is_valid:true"
          then Returned (lastSegment (Get m "openid.claimed_id"), None)
                        (afterConfirmation σ m)
          else Returned (EmptyString, Some ErrInvalidAuthRequest)
                        (afterConfirmation σ m)
      end
  end.
Proof.
  intros Hvals Hmode. destruct σ as [sa v log]. cbn in Hvals. subst v.
  unfold ValidateCallback, afterConfirmation. run_go.
  cbn [vals receiver sent]. rewrite Hmode.
  change (negb ("id_res" =? "id_res")%string) with false.
  cbn beta iota. cbn [vals receiver sent].
  change (Set_ m "openid.mode" "check_authentication") with (confirmationValues m).
  fold (confirmationRequest m).
  destruct (transport log (confirmationRequest m)) as [text|res];
    [reflexivity|].
  unfold ReadAll. destruct (failure (Body res)) as [text|]; cbn [fmap option_fmap option_map];
    [reflexivity|].
  destruct (Contains (content (Body res)) "is_valid:true"); cbn [negb];
    [|reflexivity].
  cbn beta iota. cbn [vals receiver sent].
  replace (Get (confirmationValues m) "openid.claimed_id")
    with (Get m "openid.claimed_id")
    by (symmetry; apply Get_Set_other; discriminate).
  rewrite index_last_segment. reflexivity.
Qed.

(** A callback whose mode is [id_res] is not the nil map. *)
Lemma param_id_res σ :
  param σ "openid.mode" = "id_res" →
  ∃ m, vals σ = Some m ∧ Get m "openid.mode" = "id_res".
Proof.
  unfold param. destruct (vals σ) as [m|]; [eauto|discriminate].
Qed.

(** ** [errors.Is] on the errors of [ValidateCallback] *)

Lemma Is_wrapped_external text target msg :
  Is (Errorf_w text (external msg)) target = false.
Proof. destruct target; reflexivity. Qed.

Lemma Is_fmtError text target : Is (fmtError text) target = false.
Proof. destruct target; reflexivity. Qed.

(** A transport or read failure: the error wraps the failure, one request
    has gone out, and the error is not [ErrInvalidAuthRequest]. *)
Lemma ValidateCallback_transport_failure transport sa m log :
  Get m "openid.mode" = "id_res" →
  confirmationBody transport log m = None →
  ∃ text msg,
    ValidateCallback transport (mkState sa (Some m) log)
    = Returned (EmptyString, Some (Errorf_w text (external msg)))
               (afterConfirmation (mkState sa (Some m) log) m)
    ∧ Is (Errorf_w text (external msg)) ErrInvalidAuthRequest = false.
Proof.
  intros Hmode Hbody.
  rewrite (ValidateCallback_id_res transport (mkState sa (Some m) log) m eq_refl Hmode).
  cbn [sent].
  unfold confirmationBody in Hbody.
  destruct (transport log (confirmationRequest m)) as [msg|res].
  - eexists _, msg. split; [reflexivity|apply Is_wrapped_external].
  - destruct (failure (Body res)) as [msg|]; [|discriminate].
    eexists _, msg. split; [reflexivity|apply Is_wrapped_external].
Qed.

(** The confirmed case. *)
Lemma ValidateCallback_confirmed transport sa m log text :
  Get m "openid.mode" = "id_res" →
  confirmationBody transport log m = Some text →
  Contains text "is_valid:true" = true →
  ValidateCallback transport (mkState sa (Some m) log)
  = Returned (lastSegment (Get m "openid.claimed_id"), None)
             (afterConfirmation (mkState sa (Some m) log) m).
Proof.
  intros Hmode Hbody Hvalid.
  rewrite (ValidateCallback_id_res transport (mkState sa (Some m) log) m eq_refl Hmode).
  cbn [sent].
  unfold confirmationBody in Hbody.
  destruct (transport log (confirmationRequest m)) as [msg|res]; [discriminate|].
  destruct (failure (Body res)); [discriminate|].
  injection Hbody as ->. by rewrite Hvalid.
Qed.

(** [ValidateCallback] always returns. *)
Lemma ValidateCallback_returns transport σ :
  ∃ r σ', ValidateCallback transport σ = Returned r σ'.
Proof.
  destruct (decide (param σ "openid.mode" = "id_res")) as [Hmode|Hmode].
  - destruct (param_id_res σ Hmode) as (m & Hvals & Hm).
    rewrite (ValidateCallback_id_res transport σ m Hvals Hm).
    destruct (transport (sent σ) (confirmationRequest m)) as [msg|res]; [eauto|].
    destruct (failure (Body res)); [eauto|].
    destruct (Contains (content (Body res)) "is_valid:true"); eauto.
  - rewrite (ValidateCallback_other_mode transport σ Hmode). eauto.
Qed.

(** ** The claims about [ValidateCallback] *)

(** C1.  When the mode is [id_res] and the body of the confirmation
    response contains [is_valid:true], [ValidateCallback] succeeds and
    returns the final [/]-separated segment of the [openid.claimed_id] of
    the input, whatever that segment is; the expression it evaluates for it,
    [p[len(p)-1]], is in range; and the segment of
    [https://steamcommunity.com/openid/id/76561197960287930] is
    [76561197960287930]. *)
Theorem ValidateCallback_returns_last_segment transport sa m log text :
  Get m "openid.mode" = "id_res" →
  confirmationBody transport log m = Some text →
  Contains text "is_valid:true" = true →
  returned (ValidateCallback transport (mkState sa (Some m) log))
  = Some (lastSegment (Get m "openid.claimed_id"), None)
  ∧ index (Split (Get m "openid.claimed_id") "/")
          (len (Split (Get m "openid.claimed_id") "/") - 1)
    = InRange (lastSegment (Get m "openid.claimed_id"))
  ∧ lastSegment "https://steamcommunity.com/openid/id/76561197960287930"
    = "76561197960287930".
Proof.
  intros Hmode Hbody Hvalid. split; [|split].
  - by rewrite (ValidateCallback_confirmed _ _ _ _ _ Hmode Hbody Hvalid).
  - apply index_last_segment.
  - reflexivity.
Qed.

Lemma ValidateCallback_returns_last_segment_witness :
  Get sampleCallback "openid.mode" = "id_res"
  ∧ returned (ValidateCallback (answering "200 OK" 200 "ns:http://specs.openid.net/auth/2.0 is_valid:true")
                (mkState sampleAuther (Some sampleCallback) []))
    = Some ("76561197960287930", None).
Proof.
  split; [reflexivity|].
  exact (proj1 (ValidateCallback_returns_last_segment
                  (answering "200 OK" 200 "ns:http://specs.openid.net/auth/2.0 is_valid:true")
                  sampleAuther sampleCallback []
                  "ns:http://specs.openid.net/auth/2.0 is_valid:true"
                  eq_refl eq_refl eq_refl)).
Defined.

(** C2.  When the mode is [id_res] and the body of the confirmation
    response does not contain [is_valid:true], [ValidateCallback] returns
    the empty identifier with [ErrInvalidAuthRequest]; and that error is
    told apart from a transport failure: when the POST or the reading of
    its body fails, the error returned is not [ErrInvalidAuthRequest]
    according to [errors.Is], while [ErrInvalidAuthRequest] is. *)
Theorem ValidateCallback_rejects_without_marker transport sa m log :
  Get m "openid.mode" = "id_res" →
  (∀ text,
     confirmationBody transport log m = Some text →
     Contains text "is_valid:true" = false →
     returned (ValidateCallback transport (mkState sa (Some m) log))
     = Some (EmptyString, Some ErrInvalidAuthRequest))
  ∧ (confirmationBody transport log m = None →
     ∃ err,
       returned (ValidateCallback transport (mkState sa (Some m) log))
       = Some (EmptyString, Some err)
       ∧ Is err ErrInvalidAuthRequest = false)
  ∧ Is ErrInvalidAuthRequest ErrInvalidAuthRequest = true.
Proof.
  intros Hmode. split; [|split].
  - intros text Hbody Hvalid.
    rewrite (ValidateCallback_id_res transport (mkState sa (Some m) log) m
               eq_refl Hmode).
    cbn [sent]. unfold confirmationBody in Hbody.
    destruct (transport log (confirmationRequest m)) as [msg|res]; [discriminate|].
    destruct (failure (Body res)); [discriminate|].
    injection Hbody as ->. by rewrite Hvalid.
  - intros Hbody.
    destruct (ValidateCallback_transport_failure transport sa m log Hmode Hbody)
      as (text & msg & Hrun & His).
    exists (Errorf_w text (external msg)). by rewrite Hrun.
  - reflexivity.
Qed.

Lemma ValidateCallback_rejects_without_marker_witness :
  Get sampleCallback "openid.mode" = "id_res"
  ∧ Contains "ns:http://specs.openid.net/auth/2.0 is_valid:false" "is_valid:true" = false
  ∧ returned (ValidateCallback (answering "200 OK" 200 "ns:http://specs.openid.net/auth/2.0 is_valid:false")
                (mkState sampleAuther (Some sampleCallback) []))
    = Some (EmptyString, Some ErrInvalidAuthRequest).
Proof.
  split; [reflexivity|]. split; [reflexivity|].
  exact (proj1 (ValidateCallback_rejects_without_marker
                  (answering "200 OK" 200 "ns:http://specs.openid.net/auth/2.0 is_valid:false")
                  sampleAuther sampleCallback [] eq_refl)
           "ns:http://specs.openid.net/auth/2.0 is_valid:false" eq_refl eq_refl).
Defined.

(** C3.  When [openid.mode] is anything but [id_res] (absent, empty,
    [cancel], ...), [ValidateCallback] returns at once: the identifier is
    empty, the error is the one that reports the mode, which is not
    [ErrInvalidAuthRequest], and the state is the one before the call, so
    no request has gone out and the map is untouched. *)
Theorem ValidateCallback_rejects_other_modes transport σ :
  param σ "openid.mode" ≠ "id_res" →
  let err := fmtError ("the openid.mode was not expected. got="
                       +:+ sprintf_x (param σ "openid.mode")
                       +:+ ", expected=id_res") in
  returned (ValidateCallback transport σ) = Some (EmptyString, Some err)
  ∧ stateAfter (ValidateCallback transport σ) = Some σ
  ∧ Is err ErrInvalidAuthRequest = false.
Proof.
  intros Hmode err. rewrite (ValidateCallback_other_mode transport σ Hmode).
  split; [reflexivity|]. split; [reflexivity|]. apply Is_fmtError.
Qed.

Lemma ValidateCallback_rejects_other_modes_witness :
  param (mkState sampleAuther (Some cancelledCallback) []) "openid.mode" ≠ "id_res"
  ∧ returned (ValidateCallback unreachable (mkState sampleAuther (Some cancelledCallback) []))
    = Some (EmptyString,
            Some (fmtError "the openid.mode was not expected. got=63616e63656c, expected=id_res"))
  ∧ stateAfter (ValidateCallback unreachable (mkState sampleAuther (Some cancelledCallback) []))
    = Some (mkState sampleAuther (Some cancelledCallback) []).
Proof.
  assert (H : param (mkState sampleAuther (Some cancelledCallback) []) "openid.mode"
              ≠ "id_res") by discriminate.
  split; [exact H|].
  destruct (ValidateCallback_rejects_other_modes unreachable
              (mkState sampleAuther (Some cancelledCallback) []) H) as (Hr & Hs & _).
  split; [exact Hr|exact Hs].
Defined.

(** The same for an absent mode, an empty mode and the nil map. *)
Example ValidateCallback_absent_mode :
  ValidateCallback unreachable (mkState sampleAuther (Some ∅) [])
  = Returned (EmptyString,
              Some (fmtError "the openid.mode was not expected. got=, expected=id_res"))
             (mkState sampleAuther (Some ∅) []).
Proof. reflexivity. Qed.

Example ValidateCallback_empty_mode :
  ValidateCallback unreachable
    (mkState sampleAuther (Some (Set_ ∅ "openid.mode" "")) [])
  = Returned (EmptyString,
              Some (fmtError "the openid.mode was not expected. got=, expected=id_res"))
             (mkState sampleAuther (Some (Set_ ∅ "openid.mode" "")) []).
Proof. reflexivity. Qed.

Example ValidateCallback_nil_map :
  ValidateCallback unreachable (mkState sampleAuther None [])
  = Returned (EmptyString,
              Some (fmtError "the openid.mode was not expected. got=, expected=id_res"))
             (mkState sampleAuther None []).
Proof. reflexivity. Qed.

(** C10.  The extraction of the identifier cannot panic: [Split] on [/]
    never gives the empty slice, so [p[len(p)-1]] is in range for every
    text, and [ValidateCallback] returns in every state.  When the
    confirmation carries the marker, a [claimed_id] without [/] is returned
    whole; an absent or empty one gives the empty identifier and no
    error. *)
Theorem ValidateCallback_extraction_total :
  (∀ s, Split s "/" ≠ []
        ∧ index (Split s "/") (len (Split s "/") - 1) = InRange (lastSegment s))
  ∧ (∀ transport σ, ∃ r σ', ValidateCallback transport σ = Returned r σ')
  ∧ (∀ transport sa m log text,
       Get m "openid.mode" = "id_res" →
       confirmationBody transport log m = Some text →
       Contains text "is_valid:true" = true →
       (ContainsByte (Get m "openid.claimed_id") "/" = false →
        returned (ValidateCallback transport (mkState sa (Some m) log))
        = Some (Get m "openid.claimed_id", None))
       ∧ ((m !! "openid.claimed_id" = None ∨ Get m "openid.claimed_id" = EmptyString) →
          returned (ValidateCallback transport (mkState sa (Some m) log))
          = Some (EmptyString, None))).
Proof.
  split; [|split].
  - intros s. split; [apply Split_nonempty|apply index_last_segment].
  - apply ValidateCallback_returns.
  - intros transport sa m log text Hmode Hbody Hvalid.
    rewrite (ValidateCallback_confirmed _ _ _ _ _ Hmode Hbody Hvalid).
    cbn [returned]. split.
    + intros Hslash. unfold lastSegment.
      by rewrite (Split_without_separator _ _ Hslash).
    + intros Hempty.
      assert (Get m "openid.claimed_id" = EmptyString) as ->; [|reflexivity].
      destruct Hempty as [Habsent|Hempty]; [|exact Hempty].
      unfold Get. by rewrite Habsent.
Qed.

Lemma ValidateCallback_extraction_total_witness :
  Get (Set_ sampleCallback "openid.claimed_id" "76561197960287930") "openid.mode" = "id_res"
  ∧ ContainsByte "76561197960287930" "/" = false
  ∧ returned (ValidateCallback (answering "200 OK" 200 "is_valid:true")
                (mkState sampleAuther
                   (Some (Set_ sampleCallback "openid.claimed_id" "76561197960287930")) []))
    = Some ("76561197960287930", None)
  ∧ returned (ValidateCallback (answering "200 OK" 200 "is_valid:true")
                (mkState sampleAuther (Some (Set_ ∅ "openid.mode" "id_res")) []))
    = Some (EmptyString, None).
Proof.
  destruct ValidateCallback_extraction_total as (_ & _ & H).
  split; [reflexivity|]. split; [reflexivity|]. split.
  - exact (proj1 (H (answering "200 OK" 200 "is_valid:true") sampleAuther
                    (Set_ sampleCallback "openid.claimed_id" "76561197960287930")
                    [] "is_valid:true" eq_refl eq_refl eq_refl) eq_refl).
  - exact (proj2 (H (answering "200 OK" 200 "is_valid:true") sampleAuther
                    (Set_ ∅ "openid.mode" "id_res")
                    [] "is_valid:true" eq_refl eq_refl eq_refl)
             (or_introl eq_refl)).
Defined.

(** The status of the confirmation response is never looked at. *)
Lemma ValidateCallback_status_blind status code status' code' body σ :
  returned (ValidateCallback (answering status code body) σ)
  = returned (ValidateCallback (answering status' code' body) σ).
Proof.
  destruct (decide (param σ "openid.mode" = "id_res")) as [Hmode|Hmode].
  - destruct (param_id_res σ Hmode) as (m & Hvals & Hm).
    by rewrite !(ValidateCallback_id_res _ σ m Hvals Hm).
  - by rewrite !(ValidateCallback_other_mode _ σ Hmode).
Qed.


(** C5 as stated fails: the call writes into the map it is given. *)
Lemma ValidateCallback_changes_callback_map :
  ¬ (∀ transport σ r σ',
       ValidateCallback transport σ = Returned r σ' → vals σ' = vals σ).
Proof.
  intros H.
  specialize (H (answering "200 OK" 200 "is_valid:true")
                (mkState sampleAuther (Some sampleCallback) []) _ _ eq_refl).
  cbn [vals afterConfirmation] in H.
  apply (f_equal (λ v, match v with
                       | Some m => Get m "openid.mode"
                       | None => EmptyString
                       end)) in H.
  vm_compute in H. discriminate H.
Qed.

(** C5, amended.  [ValidateCallback] returns in every state and leaves
    every key but [openid.mode] as it was.  When the mode is not [id_res]
    the state is unchanged.  When it is [id_res], the caller's map itself
    has [openid.mode] overwritten with the one value [check_authentication],
    and the request that has gone out is the POST of the encoding of that
    map. *)
Theorem ValidateCallback_overwrites_mode_in_place transport σ :
  ∃ r σ',
    ValidateCallback transport σ = Returned r σ'
    ∧ (∀ key, key ≠ "openid.mode" → entry σ' key = entry σ key)
    ∧ (param σ "openid.mode" ≠ "id_res" → σ' = σ)
    ∧ (param σ "openid.mode" = "id_res" →
       ∃ m, vals σ = Some m
            ∧ vals σ' = Some (<["openid.mode" := ["check_authentication"]]> m)
            ∧ sent σ' = (sent σ ++
                [mkRequest "POST" OpenIdLoginUrl "application/x-www-form-urlencoded"
                   (Encode (<["openid.mode" := ["check_authentication"]]> m))])%list).
Proof.
  destruct (decide (param σ "openid.mode" = "id_res")) as [Hmode|Hmode].
  - destruct (param_id_res σ Hmode) as (m & Hvals & Hm).
    assert (∃ r, ValidateCallback transport σ = Returned r (afterConfirmation σ m))
      as [r Hrun].
    { rewrite (ValidateCallback_id_res transport σ m Hvals Hm).
      destruct (transport (sent σ) (confirmationRequest m)) as [msg|res]; [eauto|].
      destruct (failure (Body res)); [eauto|].
      destruct (Contains (content (Body res)) "is_valid:true"); eauto. }
    exists r, (afterConfirmation σ m). split; [exact Hrun|]. split; [|split].
    + intros key Hkey. unfold entry, afterConfirmation, confirmationValues.
      cbn [vals]. rewrite Hvals. by rewrite lookup_insert_ne.
    + intros Hne. contradiction.
    + intros _. exists m. split; [exact Hvals|]. split; reflexivity.
  - eexists _, σ. split; [apply (ValidateCallback_other_mode transport σ Hmode)|].
    split; [reflexivity|]. split; [reflexivity|]. intros H. contradiction.
Qed.

Lemma ValidateCallback_overwrites_mode_in_place_witness :
  param (mkState sampleAuther (Some sampleCallback) []) "openid.mode" = "id_res"
  ∧ ∃ r σ',
      ValidateCallback (answering "200 OK" 200 "is_valid:true")
        (mkState sampleAuther (Some sampleCallback) []) = Returned r σ'
      ∧ param σ' "openid.mode" = "check_authentication"
      ∧ param σ' "openid.claimed_id" = sampleClaimedId.
Proof.
  split; [reflexivity|].
  destruct (ValidateCallback_overwrites_mode_in_place
              (answering "200 OK" 200 "is_valid:true")
              (mkState sampleAuther (Some sampleCallback) []))
    as (r & σ' & Hrun & _ & _ & Hmode).
  destruct (Hmode eq_refl) as (m & Hm & Hvals & _).
  exists r, σ'. split; [exact Hrun|].
  injection Hm as <-. unfold param. rewrite Hvals. split; reflexivity.
Defined.

(** A map that went through one accepted call is refused by the next:
    its mode is no longer [id_res]. *)
Lemma ValidateCallback_twice transport sa m log r σ' :
  Get m "openid.mode" = "id_res" →
  ValidateCallback transport (mkState sa (Some m) log) = Returned r σ' →
  ∃ err, ValidateCallback transport σ' = Returned (EmptyString, Some err) σ'
         ∧ Is err ErrInvalidAuthRequest = false.
Proof.
  intros Hmode Hrun.
  assert (σ' = afterConfirmation (mkState sa (Some m) log) m) as ->.
  { rewrite (ValidateCallback_id_res transport (mkState sa (Some m) log) m
               eq_refl Hmode) in Hrun.
    cbn [sent] in Hrun.
    destruct (transport log (confirmationRequest m)) as [msg|res];
      [congruence|].
    destruct (failure (Body res)); [congruence|].
    destruct (Contains (content (Body res)) "is_valid:true"); congruence. }
  eexists. split; [|apply Is_fmtError].
  apply ValidateCallback_other_mode.
  unfold param, afterConfirmation, confirmationValues. cbn [vals].
  unfold Get. rewrite lookup_insert_eq. discriminate.
Qed.

(** ** [GetSteamUser], branch by branch *)

Lemma Parse_profile_endpoint :
  Parse "http://api.steampowered.com/ISteamUser/GetPlayerSummaries/v0002"
  = inr (mkURL "http" "" "api.steampowered.com"
           "/ISteamUser/GetPlayerSummaries/v0002" false "" "").
Proof. reflexivity. Qed.

Lemma Query_without_query scheme opaque host path force fragment :
  Query (mkURL scheme opaque host path force "" fragment) = ∅.
Proof. reflexivity. Qed.

Lemma GetSteamUser_unfold transport scan steamid64 σ :
  GetSteamUser transport scan steamid64 σ =
  let σ' := afterRequest σ (profileRequest (receiver σ) steamid64) in
  match transport (sent σ) (profileRequest (receiver σ) steamid64) with
  | inl msg =>
      Returned (None,
                Some (Errorf_w (getSteamUserPrefix steamid64 +:+ "make get request: ")
                        (external msg))) σ'
  | inr res =>
      if StatusCode res =? 200 then
        match Decode scan (Body res) with
        | inl err =>
            Returned (None,
                      Some (Errorf_w (getSteamUserPrefix steamid64
                                      +:+ "decode response body: ") err)) σ'
        | inr d =>
            match items (Players (Response_ d)) with
            | [] => Returned (None, Some ErrNoData) σ'
            | first :: _ => Returned (Some first, None) σ'
            end
        end
      else
        Returned (None,
                  Some (fmtError (getSteamUserPrefix steamid64
                                  +:+ "status code is not 200 ("
                                  +:+ Status res +:+ ")"))) σ'
  end.
Proof.
  unfold GetSteamUser. rewrite Parse_profile_endpoint. run_go.
  rewrite Query_without_query.
  change (String_ (withRawQuery _ ?q)) with
    (String_ (mkURL "http" "" "api.steampowered.com"
                "/ISteamUser/GetPlayerSummaries/v0002" false q "")).
  fold (profileRequest (receiver σ) steamid64).
  fold (afterRequest σ (profileRequest (receiver σ) steamid64)).
  cbn zeta.
  destruct (transport (sent σ) (profileRequest (receiver σ) steamid64))
    as [msg|res]; [reflexivity|].
  destruct (StatusCode res =? 200); cbn [negb]; [|reflexivity].
  destruct (Decode scan (Body res)) as [err|d]; [reflexivity|].
  unfold len, index. destruct (items (Players (Response_ d))) as [|p ps]; [reflexivity|].
  replace (Z.of_nat (List.length (p :: ps)) <? 1) with false
    by (symmetry; apply Z.ltb_ge; simpl List.length; lia).
  reflexivity.
Qed.

(** [GetSteamUser] always returns, and sends one request. *)
Lemma GetSteamUser_returns transport scan steamid64 σ :
  ∃ r, GetSteamUser transport scan steamid64 σ
       = Returned r (afterRequest σ (profileRequest (receiver σ) steamid64)).
Proof.
  rewrite GetSteamUser_unfold. cbn zeta.
  destruct (transport (sent σ) (profileRequest (receiver σ) steamid64))
    as [msg|res]; [eauto|].
  destruct (StatusCode res =? 200); [|eauto].
  destruct (Decode scan (Body res)) as [err|d]; [eauto|].
  destruct (items (Players (Response_ d))); eauto.
Qed.

(** ** The claims about [GetSteamUser] *)

(** C7.  For the response to the profile request: a status other than 200
    gives the error that carries the status text, which is not [ErrNoData];
    status 200 and a body that decodes to an empty list of players give
    [ErrNoData]; status 200 and a non-empty list give its first element and
    no error; and a profile is returned in no other case. *)
Theorem GetSteamUser_status_and_data transport scan steamid64 σ :
  (∀ res,
     transport (sent σ) (profileRequest (receiver σ) steamid64) = inr res →
     StatusCode res ≠ 200 →
     let err := fmtError (getSteamUserPrefix steamid64
                          +:+ "status code is not 200 (" +:+ Status res +:+ ")") in
     returned (GetSteamUser transport scan steamid64 σ) = Some (None, Some err)
     ∧ Is err ErrNoData = false)
  ∧ (∀ res d,
       transport (sent σ) (profileRequest (receiver σ) steamid64) = inr res →
       StatusCode res = 200 →
       Decode scan (Body res) = inr d →
       items (Players (Response_ d)) = [] →
       returned (GetSteamUser transport scan steamid64 σ)
       = Some (None, Some ErrNoData))
  ∧ (∀ res d first rest,
       transport (sent σ) (profileRequest (receiver σ) steamid64) = inr res →
       StatusCode res = 200 →
       Decode scan (Body res) = inr d →
       items (Players (Response_ d)) = first :: rest →
       returned (GetSteamUser transport scan steamid64 σ)
       = Some (Some first, None))
  ∧ (∀ user err,
       returned (GetSteamUser transport scan steamid64 σ) = Some (Some user, err) →
       err = None
       ∧ ∃ res d rest,
           transport (sent σ) (profileRequest (receiver σ) steamid64) = inr res
           ∧ StatusCode res = 200
           ∧ Decode scan (Body res) = inr d
           ∧ items (Players (Response_ d)) = user :: rest).
Proof.
  rewrite GetSteamUser_unfold. cbn zeta.
  split; [|split; [|split]].
  - intros res Hres Hstatus. rewrite Hres.
    apply Z.eqb_neq in Hstatus. rewrite Hstatus.
    split; [reflexivity|apply Is_fmtError].
  - intros res d Hres Hstatus Hd Hplayers.
    by rewrite Hres, Hstatus, Hd, Hplayers.
  - intros res d first rest Hres Hstatus Hd Hplayers.
    by rewrite Hres, Hstatus, Hd, Hplayers.
  - intros user err.
    destruct (transport (sent σ) (profileRequest (receiver σ) steamid64))
      as [msg|res] eqn:Hres; [discriminate|].
    destruct (StatusCode res =? 200) eqn:Hstatus; [|discriminate].
    destruct (Decode scan (Body res)) as [e|d] eqn:Hd; [discriminate|].
    destruct (items (Players (Response_ d))) as [|first rest] eqn:Hplayers;
      [discriminate|].
    cbn [returned]. intros [= -> <-]. split; [reflexivity|].
    exists res, d, rest. apply Z.eqb_eq in Hstatus. repeat split; assumption || reflexivity.
Qed.

Lemma GetSteamUser_status_and_data_witness :
  (returned (GetSteamUser (answering "404 Not Found" 404 "") (reading (envelope []))
               "76561197960287930" (mkState sampleAuther None []))
   = Some (None,
           Some (fmtError "get steam user (76561197960287930): status code is not 200 (404 Not Found)")))
  ∧ returned (GetSteamUser (answering "200 OK" 200 "") (reading (envelope []))
                "76561197960287930" (mkState sampleAuther None []))
    = Some (None, Some ErrNoData)
  ∧ returned (GetSteamUser (answering "200 OK" 200 "")
                (reading (envelope [JObject samplePlayer; JNull]))
                "76561197960287930" (mkState sampleAuther None []))
    = Some (Some sampleUser, None).
Proof.
  split; [|split].
  - destruct (GetSteamUser_status_and_data (answering "404 Not Found" 404 "")
                (reading (envelope [])) "76561197960287930"
                (mkState sampleAuther None [])) as (H & _).
    exact (proj1 (H _ eq_refl ltac:(discriminate))).
  - destruct (GetSteamUser_status_and_data (answering "200 OK" 200 "")
                (reading (envelope [])) "76561197960287930"
                (mkState sampleAuther None [])) as (_ & H & _).
    exact (H _ (mkData (mkResponseData (mkSlice [] []))) eq_refl eq_refl eq_refl eq_refl).
  - destruct (GetSteamUser_status_and_data (answering "200 OK" 200 "")
                (reading (envelope [JObject samplePlayer; JNull]))
                "76561197960287930"
                (mkState sampleAuther None [])) as (_ & _ & H & _).
    exact (H _ (mkData (mkResponseData (mkSlice [sampleUser; zeroSteamUser] [])))
             sampleUser [zeroSteamUser] eq_refl eq_refl eq_refl eq_refl).
Defined.

(** ** Decoding a player object *)

Lemma SteamUser_ext (a b : SteamUser) :
  (∀ f, playerValue f a = playerValue f b) → a = b.
Proof.
  intros H. destruct a, b.
  pose proof (H fSteamID) as H1. pose proof (H fPersonaName) as H2.
  pose proof (H fPersonaState) as H3. pose proof (H fProfileUrl) as H4.
  pose proof (H fProfileState) as H5.
  pose proof (H fCommunityVisibilityStatus) as H6.
  pose proof (H fAvatar) as H7. pose proof (H fAvatarMedium) as H8.
  pose proof (H fAvatarFull) as H9.
  cbn in *. congruence.
Qed.

(** Writing the value of a field of [u] into a struct gives that field
    the value it has in [u] and leaves the other fields alone. *)
Lemma setSteamUserField_playerValue (f : Field) (u cur : SteamUser) :
  fits u →
  ∃ cur', setSteamUserField f (playerValue f u) cur = Some cur'
          ∧ playerValue f cur' = playerValue f u
          ∧ ∀ f', f' ≠ f → playerValue f' cur' = playerValue f' cur.
Proof.
  intros (H1 & H2 & H3). destruct cur.
  destruct f; cbn [setSteamUserField playerValue decodeString decodeInt mapResult];
    rewrite ?H1, ?H2, ?H3; cbn [mapResult];
    (eexists; split; [reflexivity|]; split; [reflexivity|]);
    intros f' Hne; destruct f'; try reflexivity; congruence.
Qed.

Lemma decodeMembers_steamUser (members : list (string * json)) :
  ∀ (cur u : SteamUser),
    fits u →
    (∀ k v f, In (k, v) members →
              selectField jsonTag steamUserFields k = Some f →
              v = playerValue f u) →
    (∀ f, In f (addressed members) ∨ playerValue f cur = playerValue f u) →
    decodeMembers jsonTag steamUserFields setSteamUserField members cur = Some u.
Proof.
  induction members as [|[k v] members IH]; intros cur u Hfits Hvalues Hcover.
  - cbn. f_equal. apply SteamUser_ext. intros f.
    destruct (Hcover f) as [[]|H]; exact H.
  - cbn [decodeMembers].
    destruct (selectField jsonTag steamUserFields k) as [f|] eqn:Hsel.
    + rewrite (Hvalues k v f (or_introl eq_refl) Hsel).
      destruct (setSteamUserField_playerValue f u cur Hfits)
        as (cur' & -> & Hset & Hframe).
      apply IH; [exact Hfits| |].
      * intros k' v' f' Hin. apply Hvalues. by right.
      * intros f'. destruct (decide (f' = f)) as [->|Hne]; [by right|].
        destruct (Hcover f') as [Hin|Hcur].
        -- left. unfold addressed in Hin. cbn [omap list_omap fst] in Hin.
           rewrite Hsel in Hin. destruct Hin as [Heq|Hin]; [congruence|exact Hin].
        -- right. by rewrite (Hframe f' Hne).
    + apply IH; [exact Hfits| |].
      * intros k' v' f' Hin. apply Hvalues. by right.
      * intros f'. destruct (Hcover f') as [Hin|Hcur]; [left|by right].
        unfold addressed in Hin. cbn [omap list_omap fst] in Hin.
        by rewrite Hsel in Hin.
Qed.

Lemma sameScalar_playerValue (v : json) (f : Field) (u : SteamUser) :
  sameScalar v (playerValue f u) = true → v = playerValue f u.
Proof.
  destruct f, v; cbn; try discriminate; intros H;
    first [apply String.eqb_eq in H | apply Z.eqb_eq in H]; by subst.
Qed.

Lemma selectField_jsonTag (f : Field) :
  selectField jsonTag steamUserFields (jsonTag f) = Some f.
Proof. destruct f; reflexivity. Qed.

Lemma memberValue_In (members : list (string * json)) (key : string) (v : json) :
  memberValue members key = Some v → In (key, v) members.
Proof.
  unfold memberValue. intros H.
  destruct (List.find (λ kv, String.eqb kv.1 key) members) as [[k w]|] eqn:Hfind;
    [|discriminate].
  injection H as ->. apply List.find_some in Hfind as [Hin Hk].
  apply String.eqb_eq in Hk. cbn in Hk. by subst.
Qed.

(** Two elements of a list with the same image are the same element when
    the images are without repetition. *)
Lemma omap_NoDup_inj {A B} (g : A → option B) (l : list A) (x y : A) (z : B) :
  NoDup (omap g l) → x ∈ l → y ∈ l → g x = Some z → g y = Some z → x = y.
Proof.
  induction l as [|a l IH]; intros Hnd Hx Hy Hgx Hgy; [by inversion Hx|].
  cbn [omap list_omap] in Hnd.
  assert (Htail : NoDup (omap g l)).
  { destruct (g a); [by apply NoDup_cons in Hnd as []|exact Hnd]. }
  assert (Hhead : ∀ w, w ∈ l → g w = Some z → g a = Some z → False).
  { intros w Hw Hgw Hga. rewrite Hga in Hnd. apply NoDup_cons in Hnd as [Hnotin _].
    apply Hnotin. apply list_elem_of_omap. eauto. }
  apply elem_of_cons in Hx as [->|Hx]; apply elem_of_cons in Hy as [->|Hy].
  - reflexivity.
  - destruct (Hhead y Hy Hgy Hgx).
  - destruct (Hhead x Hx Hgx Hgy).
  - by apply IH.
Qed.

Lemma wellFormedPlayer_spec (members : list (string * json)) (u : SteamUser) :
  wellFormedPlayer members u = true →
  fits u ∧ NoDup (addressed members)
  ∧ ∀ f, memberValue members (jsonTag f) = Some (playerValue f u).
Proof.
  unfold wellFormedPlayer. rewrite !andb_true_iff.
  intros ((((Hvalues & Hnodup) & H1) & H2) & H3).
  split; [by repeat split|]. split; [by apply bool_decide_eq_true in Hnodup|].
  intros f. rewrite forallb_forall in Hvalues.
  assert (Hin : In f steamUserFields) by (destruct f; cbn; tauto).
  specialize (Hvalues f Hin).
  destruct (memberValue members (jsonTag f)) as [v|]; [|discriminate].
  f_equal. by apply sameScalar_playerValue.
Qed.

(** A well-formed player object decodes to the profile it stands for,
    whatever the struct held before. *)
Lemma decodeSteamUser_wellFormed (members : list (string * json)) (u cur : SteamUser) :
  wellFormedPlayer members u = true →
  decodeSteamUser (JObject members) cur = Some u.
Proof.
  intros Hwf. apply wellFormedPlayer_spec in Hwf as (Hfits & Hnodup & Hvalues).
  unfold decodeSteamUser, decodeStruct.
  apply decodeMembers_steamUser; [exact Hfits| |].
  - intros k v f Hin Hsel.
    assert (Heq : (k, v) = (jsonTag f, playerValue f u)); [|congruence].
    apply (omap_NoDup_inj (λ kv, selectField jsonTag steamUserFields kv.1)
             members _ _ f Hnodup).
    + by apply list_elem_of_In.
    + apply list_elem_of_In, memberValue_In, Hvalues.
    + exact Hsel.
    + apply selectField_jsonTag.
  - intros f. left. apply list_elem_of_In. unfold addressed.
    apply list_elem_of_omap. exists (jsonTag f, playerValue f u). split.
    + apply list_elem_of_In, memberValue_In, Hvalues.
    + apply selectField_jsonTag.
Qed.

(** The envelope around one player object decodes as the object does,
    into a zero value. *)
Lemma decodeData_one_player (members : list (string * json)) :
  decodeData (envelope [JObject members]) zeroData
  = match decodeSteamUser (JObject members) zeroSteamUser with
    | Some u => Some (mkData (mkResponseData (mkSlice [u] [])))
    | None => None
    end.
Proof.
  unfold envelope, decodeData, decodeResponseData, decodeStruct.
  cbn [decodeMembers].
  change (selectField (λ _ : (), "response") [()] "response") with (Some ()).
  cbn [decodeMembers].
  change (selectField (λ _ : (), "players") [()] "players") with (Some ()).
  cbn [decodeSlice decodeElements zeroData Response_ Players items beyond app].
  by destruct (decodeSteamUser (JObject members) zeroSteamUser).
Qed.

(** The envelope around one well-formed player decodes to that profile. *)
Lemma Decode_envelope (scan : Decoder) body (members : list (string * json)) (u : SteamUser) :
  scan body = inr (envelope [JObject members]) →
  wellFormedPlayer members u = true →
  Decode scan body = inr (mkData (mkResponseData (mkSlice [u] []))).
Proof.
  intros Hscan Hwf. unfold Decode. rewrite Hscan, decodeData_one_player.
  by rewrite (decodeSteamUser_wellFormed members u zeroSteamUser Hwf).
Qed.

(** C8.  When the profile API answers with status 200 and a body that
    holds one well-formed player object, [GetSteamUser] returns the profile
    whose every documented field is the value the object holds under the
    name of that field: the strings as they are, the integers (also those
    of the enumerations) as they are. *)
Theorem GetSteamUser_decodes_player transport (scan : Decoder) steamid64 σ res
    members u :
  transport (sent σ) (profileRequest (receiver σ) steamid64) = inr res →
  StatusCode res = 200 →
  scan (Body res) = inr (envelope [JObject members]) →
  wellFormedPlayer members u = true →
  returned (GetSteamUser transport scan steamid64 σ) = Some (Some u, None)
  ∧ ∀ f, memberValue members (jsonTag f) = Some (playerValue f u).
Proof.
  intros Hres Hstatus Hscan Hwf. split.
  - rewrite GetSteamUser_unfold. cbn zeta.
    rewrite Hres, Hstatus, (Decode_envelope scan _ members u Hscan Hwf).
    reflexivity.
  - by apply wellFormedPlayer_spec in Hwf as (_ & _ & H).
Qed.

Lemma GetSteamUser_decodes_player_witness :
  wellFormedPlayer samplePlayer sampleUser = true
  ∧ returned (GetSteamUser (answering "200 OK" 200 "")
                (reading (envelope [JObject samplePlayer]))
                "76561197960287930" (mkState sampleAuther None []))
    = Some (Some sampleUser, None).
Proof.
  split; [reflexivity|].
  exact (proj1 (GetSteamUser_decodes_player (answering "200 OK" 200 "")
                  (reading (envelope [JObject samplePlayer]))
                  "76561197960287930" (mkState sampleAuther None [])
                  _ samplePlayer sampleUser eq_refl eq_refl eq_refl eq_refl)).
Defined.

(** ** The receiver is only read *)

Lemma GetAuthUrl_run returnUrl σ :
  GetAuthUrl returnUrl σ
  = Returned (authUrlFrom (Parse OpenIdLoginUrl) (receiver σ) returnUrl) σ.
Proof. reflexivity. Qed.

Lemma ValidateCallback_frame transport σ :
  ∃ r σ', ValidateCallback transport σ = Returned r σ'
          ∧ receiver σ' = receiver σ.
Proof.
  destruct (decide (param σ "openid.mode" = "id_res")) as [Hmode|Hmode].
  - destruct (param_id_res σ Hmode) as (m & Hvals & Hm).
    rewrite (ValidateCallback_id_res transport σ m Hvals Hm).
    destruct (transport (sent σ) (confirmationRequest m)) as [msg|res]; [eauto|].
    destruct (failure (Body res)); [eauto|].
    destruct (Contains (content (Body res)) "is_valid:true"); eauto.
  - rewrite (ValidateCallback_other_mode transport σ Hmode). eauto.
Qed.

Lemma perform_frame transport scan (c : Call) σ :
  ∃ σ', perform transport scan c σ = Returned tt σ'
        ∧ receiver σ' = receiver σ.
Proof.
  destruct c as [returnUrl|v|steamid64]; unfold perform; run_go.
  - rewrite GetAuthUrl_run. eauto.
  - unfold pass.
    destruct (ValidateCallback_frame transport (mkState (receiver σ) v (sent σ)))
      as (r & σ' & -> & Hframe). eauto.
  - destruct (GetSteamUser_returns transport scan steamid64 σ) as [r ->]. eauto.
Qed.

(** C9.  Whatever calls of the three methods are made on a [SteamAuther]
    built by [New apiKey realm], in whatever order and with whatever
    arguments and answers of the network, all of them return and the
    struct still holds the [apiKey] and the [realm] given to [New]. *)
Theorem configuration_is_never_changed transport scan key base v log
    (calls : list Call) :
  ∃ σ', performAll transport scan calls (mkState (New key base) v log)
        = Returned tt σ'
        ∧ receiver σ' = New key base
        ∧ apiKey (receiver σ') = key
        ∧ realm (receiver σ') = base.
Proof.
  assert (H : ∀ σ, ∃ σ', performAll transport scan calls σ = Returned tt σ'
                         ∧ receiver σ' = receiver σ).
  { induction calls as [|c calls IH]; intros σ; [by exists σ|].
    cbn [performAll]. unfold mbind, Go_bind.
    destruct (perform_frame transport scan c σ) as (σ1 & -> & H1).
    destruct (IH σ1) as (σ2 & -> & H2). exists σ2. split; congruence. }
  destruct (H (mkState (New key base) v log)) as (σ' & Hrun & Hframe).
  exists σ'. cbn [receiver] in Hframe. rewrite Hframe. auto.
Qed.

(** ** Query escaping round trip *)

Ltac each_byte c := destruct c as [[] [] [] [] [] [] [] []].

(** What an unescaped byte is not. *)
Lemma unreserved_byte (c : ascii) :
  shouldEscape c = false →
  Ascii.eqb c "%" = false ∧ Ascii.eqb c "+" = false.
Proof. each_byte c; vm_compute; intros; first [discriminate | split; reflexivity]. Qed.

(** The two digits written for an escaped byte are read back as it. *)
Lemma escaped_byte_digits (c : ascii) :
  let n := N_of_ascii c in
  ishex (upperhex (n / 16)) = true ∧ ishex (upperhex (n mod 16)) = true
  ∧ ascii_of_N (unhex (upperhex (n / 16)) * 16 + unhex (upperhex (n mod 16))) = c
  ∧ escapedByte (upperhex (n / 16)) = true
  ∧ escapedByte (upperhex (n mod 16)) = true.
Proof. each_byte c; vm_compute; repeat split; reflexivity. Qed.

(** No byte [Encode] writes is a control byte or one of [#], [?], [;]. *)
Lemma encodedByte_plain (c : ascii) :
  encodedByte c = true →
  Ascii.eqb c "#" = false ∧ Ascii.eqb c "?" = false ∧ Ascii.eqb c ";" = false
  ∧ ((N_of_ascii c <? 32)%N || (N_of_ascii c =? 127)%N) = false.
Proof. each_byte c; vm_compute; intros; first [discriminate | repeat split; reflexivity]. Qed.

(** No byte [QueryEscape] writes is [&] or [=]. *)
Lemma escapedByte_no_separator (c : ascii) :
  escapedByte c = true →
  Ascii.eqb c "&" = false ∧ Ascii.eqb c "=" = false ∧ encodedByte c = true.
Proof. each_byte c; vm_compute; intros; first [discriminate | repeat split; reflexivity]. Qed.

Lemma QueryEscape_bytes (s : string) : allBytes escapedByte (QueryEscape s) = true.
Proof.
  induction s as [|c s IH]; [reflexivity|]. cbn [QueryEscape].
  destruct (shouldEscape c) eqn:Hesc.
  - destruct (Ascii.eqb c " "); cbn [allBytes]; [by rewrite IH|].
    destruct (escaped_byte_digits c) as (_ & _ & _ & -> & ->). by rewrite IH.
  - cbn [allBytes]. unfold escapedByte at 1. by rewrite Hesc, IH.
Qed.

Lemma QueryUnescape_QueryEscape (s : string) :
  QueryUnescape (QueryEscape s) = Some s.
Proof.
  induction s as [|c s IH]; [reflexivity|]. cbn [QueryEscape].
  destruct (shouldEscape c) eqn:Hesc.
  - destruct (Ascii.eqb c " ") eqn:Hsp.
    + apply Ascii.eqb_eq in Hsp as ->. cbn [QueryUnescape].
      change (Ascii.eqb "+" "%") with false. change (Ascii.eqb "+" "+") with true.
      cbn iota. by rewrite IH.
    + cbn [QueryUnescape]. change (Ascii.eqb "%" "%") with true. cbn iota.
      destruct (escaped_byte_digits c) as (-> & -> & -> & _). cbn [andb].
      by rewrite IH.
  - cbn [QueryUnescape]. destruct (unreserved_byte c Hesc) as [-> ->].
    by rewrite IH.
Qed.

(** *** Bytes and cutting *)

Lemma allBytes_app (P : ascii → bool) (a b : string) :
  allBytes P (a +:+ b) = allBytes P a && allBytes P b.
Proof.
  induction a as [|c a IH]; [reflexivity|]. simpl. by rewrite IH, andb_assoc.
Qed.

Lemma allBytes_weaken (P Q : ascii → bool) (s : string) :
  (∀ c, P c = true → Q c = true) → allBytes P s = true → allBytes Q s = true.
Proof.
  intros HPQ. induction s as [|c s IH]; [done|]. simpl.
  rewrite !andb_true_iff. intros [Hc Hs]. auto.
Qed.

Lemma allBytes_ContainsByte (P : ascii → bool) (s : string) (c : ascii) :
  (∀ d, P d = true → Ascii.eqb d c = false) →
  allBytes P s = true → ContainsByte s c = false.
Proof.
  intros HP. induction s as [|d s IH]; [done|]. simpl.
  rewrite andb_true_iff. intros [Hd Hs]. by rewrite (HP d Hd), (IH Hs).
Qed.

Lemma ContainsByte_app (a b : string) (c : ascii) :
  ContainsByte (a +:+ b) c = ContainsByte a c || ContainsByte b c.
Proof.
  induction a as [|d a IH]; [reflexivity|]. simpl. by rewrite IH, orb_assoc.
Qed.

Lemma Cut_absent (s : string) (sep : ascii) :
  ContainsByte s sep = false → Cut s sep = (s, EmptyString, false).
Proof.
  induction s as [|c s IH]; [reflexivity|]. simpl.
  intros H. apply orb_false_iff in H as [-> Hs]. by rewrite (IH Hs).
Qed.

Lemma Cut_at (a b : string) (sep : ascii) :
  ContainsByte a sep = false → Cut (a +:+ String sep b) sep = (a, b, true).
Proof.
  induction a as [|c a IH]; simpl.
  - by rewrite Ascii.eqb_refl.
  - intros H. apply orb_false_iff in H as [-> Ha]. by rewrite (IH Ha).
Qed.

Lemma Split_at (a b : string) (sep : ascii) :
  ContainsByte a sep = false →
  Split (a +:+ String sep b) sep = a :: Split b sep.
Proof.
  induction a as [|c a IH]; simpl.
  - by rewrite Ascii.eqb_refl.
  - intros H. apply orb_false_iff in H as [-> Ha]. by rewrite (IH Ha).
Qed.

(** *** [Encode] writes the pairs joined by [&] *)

Lemma append_assoc (a b c : string) : (a +:+ b) +:+ c = a +:+ b +:+ c.
Proof.
  induction a as [|d a IH]; [reflexivity|].
  change (String d ((a +:+ b) +:+ c) = String d (a +:+ b +:+ c)). by rewrite IH.
Qed.

Lemma append_empty_r (a : string) : a +:+ EmptyString = a.
Proof.
  induction a as [|d a IH]; [reflexivity|].
  change (String d (a +:+ EmptyString) = String d a). by rewrite IH.
Qed.

Lemma length_append (a b : string) :
  String.length (a +:+ b) = (String.length a + String.length b)%nat.
Proof.
  induction a as [|d a IH]; [reflexivity|].
  change (S (String.length (a +:+ b)) = S (String.length a + String.length b)).
  by rewrite IH.
Qed.

Lemma encodePair_length (kv : string * string) :
  (0 < String.length (encodePair kv))%nat.
Proof. unfold encodePair. rewrite !length_append. simpl. lia. Qed.

Lemma encodePair_bytes (kv : string * string) :
  allBytes encodedByte (encodePair kv) = true.
Proof.
  unfold encodePair. rewrite !allBytes_app.
  assert (H : ∀ s, allBytes encodedByte (QueryEscape s) = true).
  { intros s. apply (allBytes_weaken escapedByte); [|apply QueryEscape_bytes].
    intros c Hc. by destruct (escapedByte_no_separator c Hc) as (_ & _ & ?). }
  by rewrite !H.
Qed.

Lemma QueryEscape_no_byte (s : string) (c : ascii) :
  escapedByte c = false → ContainsByte (QueryEscape s) c = false.
Proof.
  intros Hc. apply (allBytes_ContainsByte escapedByte); [|apply QueryEscape_bytes].
  intros d Hd. destruct (Ascii.eqb_spec d c) as [->|]; [congruence|reflexivity].
Qed.

Lemma encodePair_no_ampersand (kv : string * string) :
  ContainsByte (encodePair kv) "&" = false.
Proof.
  unfold encodePair. rewrite !ContainsByte_app.
  by rewrite !(QueryEscape_no_byte _ "&").
Qed.

Lemma joinAmp_length (pieces : list string) :
  pieces ≠ [] → Forall (λ p, (0 < String.length p)%nat) pieces →
  (0 < String.length (joinAmp pieces))%nat.
Proof.
  destruct pieces as [|p [|q pieces]]; [done| |]; intros _ Hall;
    apply Forall_cons in Hall as [Hp _]; cbn [joinAmp]; [done|].
  rewrite length_append. lia.
Qed.

Lemma joinAmp_snoc (pieces : list string) (x : string) :
  pieces ≠ [] → joinAmp (pieces ++ [x]) = joinAmp pieces +:+ "&" +:+ x.
Proof.
  induction pieces as [|p pieces IH]; [done|]. intros _.
  destruct pieces as [|q pieces]; [reflexivity|].
  change (joinAmp ((p :: q :: pieces) ++ [x]))
    with (p +:+ "&" +:+ joinAmp ((q :: pieces) ++ [x])).
  rewrite IH by done. cbn [joinAmp]. by rewrite !append_assoc.
Qed.

(** One turn of the inner loop adds one pair to what is written. *)
Lemma writePair_joinAmp (written : list string) (k v : string) :
  Forall (λ p, (0 < String.length p)%nat) written →
  writePair (QueryEscape k) (joinAmp written) v
  = joinAmp (written ++ [encodePair (k, v)]).
Proof.
  intros Hall. unfold writePair. destruct written as [|p written].
  - reflexivity.
  - pose proof (joinAmp_length (p :: written) ltac:(done) Hall) as Hlen.
    apply Nat.ltb_lt in Hlen. rewrite Hlen.
    rewrite joinAmp_snoc by done. unfold encodePair. cbn [fst snd].
    by rewrite !append_assoc.
Qed.

Lemma foldl_writePair (k : string) (values : list string) :
  ∀ written,
    Forall (λ p, (0 < String.length p)%nat) written →
    foldl (writePair (QueryEscape k)) (joinAmp written) values
    = joinAmp (written ++ (encodePair <$> ((λ v, (k, v)) <$> values))).
Proof.
  induction values as [|v values IH]; intros written Hall.
  - by rewrite app_nil_r.
  - cbn [foldl fmap list_fmap]. rewrite writePair_joinAmp by done.
    rewrite IH.
    + by rewrite <- app_assoc.
    + apply Forall_app. split; [done|].
      apply Forall_singleton, encodePair_length.
Qed.

Lemma Forall_encodePair_length (pairs : list (string * string)) :
  Forall (λ p, (0 < String.length p)%nat) (encodePair <$> pairs).
Proof. apply Forall_fmap, Forall_forall. intros kv _. apply encodePair_length. Qed.

Lemma foldl_keys_joinAmp (m : Values) (keys : list string) :
  ∀ written,
    Forall (λ p, (0 < String.length p)%nat) written →
    foldl (λ buf k, foldl (writePair (QueryEscape k)) buf (default [] (m !! k)))
          (joinAmp written) keys
    = joinAmp (written ++ (encodePair <$> pairsOf m keys)).
Proof.
  induction keys as [|k keys IH]; intros written Hall.
  - by rewrite app_nil_r.
  - cbn [foldl pairsOf flat_map]. rewrite foldl_writePair by done.
    rewrite IH.
    + by rewrite fmap_app, app_assoc.
    + apply Forall_app. split; [done|apply Forall_encodePair_length].
Qed.

Lemma Encode_joinAmp (m : Values) :
  Encode m = joinAmp (encodePair <$> pairsOf m (sortedKeys m)).
Proof.
  unfold Encode. destruct (decide (size m = 0%nat)) as [Hsize|_].
  - apply map_size_empty_inv in Hsize as ->.
    unfold sortedKeys. by rewrite map_to_list_empty.
  - apply (foldl_keys_joinAmp m (sortedKeys m) []). constructor.
Qed.

Lemma Encode_bytes (m : Values) : allBytes encodedByte (Encode m) = true.
Proof.
  rewrite Encode_joinAmp. generalize (pairsOf m (sortedKeys m)) as pairs.
  induction pairs as [|kv [|kv' pairs] IH]; [reflexivity|apply encodePair_bytes|].
  change (joinAmp (encodePair <$> kv :: kv' :: pairs))
    with (encodePair kv +:+ "&" +:+ joinAmp (encodePair <$> kv' :: pairs)).
  rewrite !allBytes_app, encodePair_bytes, IH. reflexivity.
Qed.

(** *** [ParseQuery] reads the pairs back *)

Lemma Split_joinAmp (pieces : list string) :
  pieces ≠ [] → Forall (λ p, ContainsByte p "&" = false) pieces →
  Split (joinAmp pieces) "&" = pieces.
Proof.
  induction pieces as [|p pieces IH]; [done|]. intros _ Hall.
  apply Forall_cons in Hall as [Hp Hall].
  destruct pieces as [|q pieces].
  - by apply Split_without_separator.
  - change (joinAmp (p :: q :: pieces))
      with (p +:+ String "&" (joinAmp (q :: pieces))).
    rewrite Split_at by done. by rewrite IH.
Qed.

Lemma encodePair_nonempty (kv : string * string) :
  String.eqb (encodePair kv) EmptyString = false.
Proof.
  pose proof (encodePair_length kv) as H.
  destruct (encodePair kv); [simpl in H; lia|reflexivity].
Qed.

(** The loop body on a piece [Encode] wrote: the pair is added. *)
Lemma parsePiece_encodePair (m : Values) (kv : string * string) :
  parsePiece m (encodePair kv) = (Add m kv.1 kv.2, false).
Proof.
  unfold parsePiece.
  assert (ContainsByte (encodePair kv) ";" = false) as ->.
  { apply (allBytes_ContainsByte encodedByte); [|apply encodePair_bytes].
    intros d Hd. by destruct (encodedByte_plain d Hd) as (_ & _ & ? & _). }
  rewrite encodePair_nonempty. unfold encodePair.
  change (QueryEscape kv.1 +:+ "=" +:+ QueryEscape kv.2)
    with (QueryEscape kv.1 +:+ String "=" (QueryEscape kv.2)).
  rewrite Cut_at by (by apply QueryEscape_no_byte).
  by rewrite !QueryUnescape_QueryEscape.
Qed.

Lemma foldl_parsePiece (pairs : list (string * string)) :
  ∀ m bad,
    foldl (λ '(m, bad) piece,
             let '(m', b) := parsePiece m piece in (m', bad || b))
          (m, bad) (encodePair <$> pairs)
    = (addAll m pairs, bad).
Proof.
  induction pairs as [|kv pairs IH]; intros m bad; [reflexivity|].
  cbn [fmap list_fmap foldl]. rewrite parsePiece_encodePair.
  rewrite orb_false_r. apply IH.
Qed.

Lemma ParseQuery_joinAmp (pairs : list (string * string)) :
  ParseQuery (joinAmp (encodePair <$> pairs)) = (addAll ∅ pairs, false).
Proof.
  unfold ParseQuery. destruct pairs as [|kv pairs]; [reflexivity|].
  rewrite Split_joinAmp.
  - apply foldl_parsePiece.
  - done.
  - apply Forall_fmap, Forall_forall. intros p _. apply encodePair_no_ampersand.
Qed.

(** *** The map that is read back *)

Lemma addAll_lookup (pairs : list (string * string)) :
  ∀ (m : Values) (key : string),
    addAll m pairs !! key
    = match valuesFor key pairs with
      | [] => m !! key
      | vs => Some (default [] (m !! key) ++ vs)%list
      end.
Proof.
  induction pairs as [|[k v] pairs IH]; intros m key; [reflexivity|].
  unfold addAll. cbn [foldl fst snd]. fold (addAll (Add m k v) pairs).
  rewrite IH. unfold valuesFor. cbn [List.filter fst].
  destruct (String.eqb_spec k key) as [->|Hne].
  - unfold Add. rewrite lookup_insert_eq. cbn [fmap list_fmap snd default].
    destruct (snd <$> List.filter (λ kv, String.eqb kv.1 key) pairs);
      [reflexivity|]. cbn [default id]. by rewrite <- app_assoc.
  - unfold Add. by rewrite lookup_insert_ne.
Qed.

Lemma valuesFor_app (key : string) (a b : list (string * string)) :
  valuesFor key (a ++ b) = (valuesFor key a ++ valuesFor key b)%list.
Proof. unfold valuesFor. by rewrite List.filter_app, fmap_app. Qed.

Lemma valuesFor_one_key (key k : string) (values : list string) :
  valuesFor key ((λ v, (k, v)) <$> values)
  = if String.eqb k key then values else [].
Proof.
  unfold valuesFor. induction values as [|v values IH]; cbn [fmap list_fmap List.filter fst].
  - by destruct (String.eqb k key).
  - cbn [fmap list_fmap] in IH. destruct (String.eqb k key); cbn [fmap list_fmap snd];
      by rewrite IH.
Qed.

Lemma valuesFor_pairsOf (m : Values) (key : string) (keys : list string) :
  NoDup keys →
  valuesFor key (pairsOf m keys)
  = if decide (key ∈ keys) then default [] (m !! key) else [].
Proof.
  induction keys as [|k keys IH]; intros Hnd; [reflexivity|].
  apply NoDup_cons in Hnd as [Hk Hnd]. cbn [pairsOf flat_map].
  fold (pairsOf m keys). rewrite valuesFor_app, valuesFor_one_key, (IH Hnd).
  destruct (String.eqb_spec k key) as [->|Hne].
  - rewrite (decide_True (P := key ∈ key :: keys)) by (apply elem_of_cons; by left).
    rewrite decide_False by done.
    by rewrite app_nil_r.
  - destruct (decide (key ∈ keys)) as [Hin|Hnotin].
    + rewrite decide_True by (apply elem_of_cons; by right). reflexivity.
    + rewrite decide_False; [reflexivity|].
      intros [->|Hin]%elem_of_cons; [done|done].
Qed.

Lemma sortedKeys_NoDup (m : Values) : NoDup (sortedKeys m).
Proof.
  unfold sortedKeys. rewrite merge_sort_Permutation.
  apply NoDup_fst_map_to_list.
Qed.

Lemma sortedKeys_elem_of (m : Values) (key : string) :
  key ∈ sortedKeys m ↔ is_Some (m !! key).
Proof.
  unfold sortedKeys. rewrite merge_sort_Permutation, list_elem_of_fmap. split.
  - intros ([k vs] & -> & Hin). apply elem_of_map_to_list in Hin. eauto.
  - intros [vs Hvs]. exists (key, vs). split; [reflexivity|].
    by apply elem_of_map_to_list.
Qed.

(** Encoding a map and parsing the text is never rejected, and gives
    every key the values it had. *)
Lemma ParseQuery_Encode (m : Values) :
  (ParseQuery (Encode m)).2 = false
  ∧ ∀ key, Get (ParseQuery (Encode m)).1 key = Get m key.
Proof.
  rewrite Encode_joinAmp, ParseQuery_joinAmp. split; [reflexivity|].
  intros key. cbn [fst]. unfold Get. rewrite addAll_lookup.
  rewrite valuesFor_pairsOf by apply sortedKeys_NoDup.
  destruct (decide (key ∈ sortedKeys m)) as [Hin|Hnotin].
  - apply sortedKeys_elem_of in Hin as [vs Hvs]. rewrite Hvs. cbn [default].
    destruct vs; [by rewrite lookup_empty|reflexivity].
  - rewrite lookup_empty.
    destruct (m !! key) as [vs|] eqn:Hvs; [|reflexivity].
    exfalso. apply Hnotin, sortedKeys_elem_of. eauto.
Qed.

(** ** The URL [GetAuthUrl] writes, parsed *)

Lemma Parse_login_endpoint :
  Parse OpenIdLoginUrl
  = inr (mkURL "https" "" "steamcommunity.com" "/openid/login" false "" "").
Proof. reflexivity. Qed.

Lemma String_with_query (query : string) :
  isEmpty query = false →
  String_ (withRawQuery
             (mkURL "https" "" "steamcommunity.com" "/openid/login" false "" "")
             query)
  = OpenIdLoginUrl +:+ "?" +:+ query.
Proof.
  intros Hq. unfold String_, withRawQuery.
  cbn [Scheme Opaque Host Path ForceQuery RawQuery Fragment].
  rewrite Hq. reflexivity.
Qed.

Lemma HasSuffixByte_absent (s : string) (c : ascii) :
  ContainsByte s c = false → HasSuffixByte s c = false.
Proof.
  induction s as [|d s IH]; [reflexivity|]. simpl.
  intros H. apply orb_false_iff in H as [Hd Hs].
  destruct s; [exact Hd|by apply IH].
Qed.

Lemma HasSuffixByte_cons (d : ascii) (s : string) (c : ascii) :
  isEmpty s = false → HasSuffixByte (String d s) c = HasSuffixByte s c.
Proof. destruct s; [discriminate|reflexivity]. Qed.

Lemma HasSuffixByte_app (a b : string) (c : ascii) :
  isEmpty b = false → HasSuffixByte (a +:+ b) c = HasSuffixByte b c.
Proof.
  intros Hb. induction a as [|d a IH]; [reflexivity|].
  change (HasSuffixByte (String d (a +:+ b)) c = HasSuffixByte b c).
  rewrite HasSuffixByte_cons; [exact IH|].
  destruct a; [exact Hb|reflexivity].
Qed.

Lemma stringContainsCTLByte_encoded (s : string) :
  allBytes encodedByte s = true → stringContainsCTLByte s = false.
Proof.
  induction s as [|c s IH]; [reflexivity|]. simpl.
  rewrite andb_true_iff. intros [Hc Hs].
  destruct (encodedByte_plain c Hc) as (_ & _ & _ & Hctl).
  apply orb_false_iff in Hctl as [-> ->]. by rewrite (IH Hs).
Qed.

Lemma encoded_no_byte (s : string) (c : ascii) :
  encodedByte c = false → allBytes encodedByte s = true →
  ContainsByte s c = false.
Proof.
  intros Hc. apply allBytes_ContainsByte.
  intros d Hd. destruct (Ascii.eqb_spec d c) as [->|]; [congruence|reflexivity].
Qed.

Lemma Parse_with_query (query : string) :
  allBytes encodedByte query = true → isEmpty query = false →
  Parse (OpenIdLoginUrl +:+ "?" +:+ query)
  = inr (mkURL "https" "" "steamcommunity.com" "/openid/login" false query "").
Proof.
  intros Hbytes Hq. unfold Parse.
  assert (Hhash : ContainsByte (OpenIdLoginUrl +:+ "?" +:+ query) "#" = false).
  { rewrite !ContainsByte_app, (encoded_no_byte query "#") by done. reflexivity. }
  rewrite (Cut_absent _ _ Hhash). unfold parse.
  assert (stringContainsCTLByte (OpenIdLoginUrl +:+ "?" +:+ query) = false) as ->.
  { change (OpenIdLoginUrl +:+ "?" +:+ query)
      with ("https://steamcommunity.com/openid/login?" +:+ query).
    generalize (stringContainsCTLByte_encoded query Hbytes).
    unfold String.append at 1. simpl. tauto. }
  change (OpenIdLoginUrl +:+ "?" +:+ query)
    with ("https:" +:+ "//steamcommunity.com/openid/login" +:+ String "?" query).
  change (("https:" +:+ "//steamcommunity.com/openid/login" +:+ String "?" query
           =? "*")%string) with false.
  change (getScheme ("https:" +:+ "//steamcommunity.com/openid/login"
                     +:+ String "?" query))
    with (inr ("https", "//steamcommunity.com/openid/login" +:+ String "?" query)
          : string + string * string).
  cbn beta iota.
  assert (HasSuffixByte ("//steamcommunity.com/openid/login" +:+ String "?" query) "?"
          = false) as ->.
  { rewrite HasSuffixByte_app by (by destruct query).
    rewrite HasSuffixByte_cons by done.
    apply HasSuffixByte_absent, encoded_no_byte; done. }
  cbn [andb]. rewrite Cut_at by reflexivity. reflexivity.
Qed.

Lemma Get_authQuery (sa : SteamAuther) (returnUrl : string) :
  let q := authQuery sa
             (mkURL "https" "" "steamcommunity.com" "/openid/login" false "" "")
             returnUrl in
  Get q "openid.ns" = "http://specs.openid.net/auth/2.0"
  ∧ Get q "openid.mode" = "checkid_setup"
  ∧ Get q "openid.realm" = realm sa
  ∧ Get q "openid.return_to" = returnUrl
  ∧ Get q "openid.claimed_id" = "http://specs.openid.net/auth/2.0/identifier_select"
  ∧ Get q "openid.identity" = "http://specs.openid.net/auth/2.0/identifier_select".
Proof.
  cbn zeta. unfold authQuery. rewrite Query_without_query.
  repeat split;
    repeat (rewrite Get_Set_other by discriminate); apply Get_Set_same.
Qed.

Lemma Encode_authQuery_nonempty (sa : SteamAuther) (returnUrl : string) :
  isEmpty (Encode (authQuery sa
                     (mkURL "https" "" "steamcommunity.com" "/openid/login"
                        false "" "")
                     returnUrl)) = false.
Proof.
  destruct (Get_authQuery sa returnUrl) as (_ & Hmode & _).
  cbn zeta in Hmode.
  destruct (ParseQuery_Encode
              (authQuery sa
                 (mkURL "https" "" "steamcommunity.com" "/openid/login" false "" "")
                 returnUrl)) as [_ Hget].
  specialize (Hget "openid.mode"). rewrite Hmode in Hget.
  destruct (Encode _); [discriminate Hget|reflexivity].
Qed.

(** ** The claim about [GetAuthUrl] *)

(** C6.  For every return URL and every realm, [GetAuthUrl] returns a URL
    and no error.  The URL is the login endpoint followed by [?] and a
    query; it parses to scheme [https], host [steamcommunity.com] and path
    [/openid/login]; and its query parses, no piece rejected, to
    [openid.ns], [openid.mode], [openid.realm], [openid.return_to],
    [openid.claimed_id] and [openid.identity] with the values the method
    sets.  The body of the method gives an error only for a failed parse of
    the endpoint. *)
Theorem GetAuthUrl_builds_login_url (returnUrl : string) (σ : State) :
  ∃ url u,
    GetAuthUrl returnUrl σ = Returned (url, None) σ
    ∧ url = OpenIdLoginUrl +:+ "?" +:+ RawQuery u
    ∧ Parse url = inr u
    ∧ Scheme u = "https" ∧ Host u = "steamcommunity.com"
    ∧ Path u = "/openid/login" ∧ Fragment u = EmptyString
    ∧ (ParseQuery (RawQuery u)).2 = false
    ∧ Get (Query u) "openid.ns" = "http://specs.openid.net/auth/2.0"
    ∧ Get (Query u) "openid.mode" = "checkid_setup"
    ∧ Get (Query u) "openid.realm" = realm (receiver σ)
    ∧ Get (Query u) "openid.return_to" = returnUrl
    ∧ Get (Query u) "openid.claimed_id"
      = "http://specs.openid.net/auth/2.0/identifier_select"
    ∧ Get (Query u) "openid.identity"
      = "http://specs.openid.net/auth/2.0/identifier_select"
    ∧ ∀ parsed err,
        (authUrlFrom parsed (receiver σ) returnUrl).2 = Some err →
        ∃ cause, parsed = inl cause.
Proof.
  set (q := authQuery (receiver σ)
              (mkURL "https" "" "steamcommunity.com" "/openid/login" false "" "")
              returnUrl).
  exists (OpenIdLoginUrl +:+ "?" +:+ Encode q),
         (mkURL "https" "" "steamcommunity.com" "/openid/login" false (Encode q) "").
  pose proof (Encode_authQuery_nonempty (receiver σ) returnUrl) as Hne.
  fold q in Hne.
  destruct (ParseQuery_Encode q) as [Hok Hget].
  destruct (Get_authQuery (receiver σ) returnUrl)
    as (H1 & H2 & H3 & H4 & H5 & H6).
  cbn zeta in H1, H2, H3, H4, H5, H6. fold q in H1, H2, H3, H4, H5, H6.
  unfold Query. cbn [Scheme Host Path Fragment RawQuery].
  rewrite !Hget.
  split.
  { rewrite GetAuthUrl_run, Parse_login_endpoint. unfold authUrlFrom.
    fold q. by rewrite (String_with_query (Encode q) Hne). }
  split; [reflexivity|].
  split; [apply Parse_with_query; [apply Encode_bytes|exact Hne]|].
  repeat (split; [done|]).
  intros parsed err. destruct parsed as [cause|u]; [eauto|discriminate].
Qed.

Lemma GetAuthUrl_builds_login_url_witness :
  returned (GetAuthUrl "http://localhost:8080/auth/callback"
              (mkState sampleAuther None []))
  = Some ("https://steamcommunity.com/openid/login?openid.claimed_id=http%3A%2F%2Fspecs.openid.net%2Fauth%2F2.0%2Fidentifier_select&openid.identity=http%3A%2F%2Fspecs.openid.net%2Fauth%2F2.0%2Fidentifier_select&openid.mode=checkid_setup&openid.ns=http%3A%2F%2Fspecs.openid.net%2Fauth%2F2.0&openid.realm=http%3A%2F%2Flocalhost%3A8080&openid.return_to=http%3A%2F%2Flocalhost%3A8080%2Fauth%2Fcallback",
          None)
  ∧ ∃ cause,
      (inl (external "parse: net/url: invalid control character in URL")
       : error + URL) = inl cause.
Proof.
  destruct (GetAuthUrl_builds_login_url "http://localhost:8080/auth/callback"
              (mkState sampleAuther None []))
    as (url & u & Hrun & _ & _ & _ & _ & _ & _ & _ & _ & _ & _ & _ & _ & _ & Herr).
  split; [reflexivity|].
  exact (Herr (inl (external "parse: net/url: invalid control character in URL"))
           _ eq_refl).
Defined.

(** ** Further properties of [ValidateCallback] *)

(** Encoding a map and parsing the text gives every key all the values it
    had, in order; a key without values is not written. *)
Lemma ParseQuery_Encode_lookup (m : Values) (key : string) :
  (ParseQuery (Encode m)).1 !! key
  = match m !! key with
    | Some (x :: l) => Some (x :: l)
    | _ => None
    end.
Proof.
  rewrite Encode_joinAmp, ParseQuery_joinAmp. cbn [fst].
  rewrite addAll_lookup, lookup_empty.
  rewrite valuesFor_pairsOf by apply sortedKeys_NoDup.
  destruct (decide (key ∈ sortedKeys m)) as [Hin|Hnotin].
  - apply sortedKeys_elem_of in Hin as [vs Hvs]. rewrite Hvs. cbn [default].
    by destruct vs.
  - destruct (m !! key) as [vs|] eqn:Hvs; [|reflexivity].
    exfalso. apply Hnotin, sortedKeys_elem_of. eauto.
Qed.

(** X1.  A call with mode [id_res] sends one request and no more: a POST
    to [OpenIdLoginUrl] with content type
    [application/x-www-form-urlencoded].  Its body parses, no piece
    rejected, to the callback itself with [openid.mode] replaced by
    [check_authentication]: every other key arrives with all the values it
    had, whatever bytes they hold. *)
Theorem ValidateCallback_sends_the_callback transport sa (m : Values) log :
  Get m "openid.mode" = "id_res" →
  ∃ r rq,
    ValidateCallback transport (mkState sa (Some m) log)
    = Returned r (mkState sa (Some (confirmationValues m)) (log ++ [rq])%list)
    ∧ Method rq = "POST" ∧ Target rq = OpenIdLoginUrl
    ∧ ContentType rq = "application/x-www-form-urlencoded"
    ∧ (ParseQuery (Payload rq)).2 = false
    ∧ (ParseQuery (Payload rq)).1 !! "openid.mode" = Some ["check_authentication"]
    ∧ ∀ key, key ≠ "openid.mode" →
        (ParseQuery (Payload rq)).1 !! key
        = match m !! key with
          | Some (x :: l) => Some (x :: l)
          | _ => None
          end.
Proof.
  intros Hmode.
  assert (∃ r, ValidateCallback transport (mkState sa (Some m) log)
               = Returned r (afterConfirmation (mkState sa (Some m) log) m))
    as [r Hrun].
  { rewrite (ValidateCallback_id_res transport (mkState sa (Some m) log) m
               eq_refl Hmode). cbn [sent].
    destruct (transport log (confirmationRequest m)) as [msg|res]; [eauto|].
    destruct (failure (Body res)); [eauto|].
    destruct (Contains (content (Body res)) "is_valid:true"); eauto. }
  exists r, (confirmationRequest m). split; [exact Hrun|].
  cbn [confirmationRequest Method Target ContentType Payload].
  repeat (split; [reflexivity|]).
  split; [apply ParseQuery_Encode|]. split.
  - rewrite ParseQuery_Encode_lookup. unfold confirmationValues.
    by rewrite lookup_insert_eq.
  - intros key Hkey. rewrite ParseQuery_Encode_lookup. unfold confirmationValues.
    by rewrite lookup_insert_ne.
Qed.

Lemma ValidateCallback_sends_the_callback_witness :
  Get sampleCallback "openid.mode" = "id_res"
  ∧ ∃ r rq,
      ValidateCallback unreachable (mkState sampleAuther (Some sampleCallback) [])
      = Returned r (mkState sampleAuther (Some (confirmationValues sampleCallback)) [rq])
      ∧ (ParseQuery (Payload rq)).1 !! "openid.claimed_id" = Some [sampleClaimedId].
Proof.
  split; [reflexivity|].
  destruct (ValidateCallback_sends_the_callback unreachable sampleAuther
              sampleCallback [] eq_refl)
    as (r & rq & Hrun & _ & _ & _ & _ & _ & Hkeys).
  exists r, rq. split; [exact Hrun|].
  exact (Hkeys "openid.claimed_id" ltac:(discriminate)).
Defined.

(** X2.  When the POST fails, or the reading of the response body fails
    (whatever was read before, the marker included), the identifier is
    empty and the error wraps the failure: its text is the text of the
    failure after a prefix that tells the step, and [errors.Unwrap] gives
    the failure back. *)
Theorem ValidateCallback_failure_wraps_cause transport sa (m : Values) log :
  Get m "openid.mode" = "id_res" →
  (∀ msg,
     transport log (confirmationRequest m) = inl msg →
     ∃ err,
       returned (ValidateCallback transport (mkState sa (Some m) log))
       = Some (EmptyString, Some err)
       ∧ Error err = "validate callback: failed making validation request: " +:+ msg
       ∧ Unwrap err = Some (external msg))
  ∧ (∀ res msg,
       transport log (confirmationRequest m) = inr res →
       failure (Body res) = Some msg →
       ∃ err,
         returned (ValidateCallback transport (mkState sa (Some m) log))
         = Some (EmptyString, Some err)
         ∧ Error err = "validate callback: read all bytes: " +:+ msg
         ∧ Unwrap err = Some (external msg)).
Proof.
  intros Hmode.
  rewrite (ValidateCallback_id_res transport (mkState sa (Some m) log) m
             eq_refl Hmode). cbn [sent].
  split.
  - intros msg ->. eexists. split; [reflexivity|]. split; reflexivity.
  - intros res msg -> ->. eexists. split; [reflexivity|]. split; reflexivity.
Qed.

Lemma ValidateCallback_failure_wraps_cause_witness :
  Get sampleCallback "openid.mode" = "id_res"
  ∧ ∃ err,
      returned (ValidateCallback unreachable
                  (mkState sampleAuther (Some sampleCallback) []))
      = Some (EmptyString, Some err)
      ∧ Error err = "validate callback: failed making validation request: dial tcp: connection refused"
      ∧ Unwrap err = Some (external "dial tcp: connection refused").
Proof.
  split; [reflexivity|].
  exact (proj1 (ValidateCallback_failure_wraps_cause unreachable sampleAuther
                  sampleCallback [] eq_refl)
           "dial tcp: connection refused" eq_refl).
Defined.

Lemma HasPrefix_append (a b : string) : HasPrefix (a +:+ b) a = true.
Proof.
  induction a as [|c a IH]; [by destruct b|].
  change (HasPrefix (String c (a +:+ b)) (String c a) = true).
  cbn [HasPrefix]. by rewrite Ascii.eqb_refl, IH.
Qed.

Lemma Contains_inside (a b c : string) : Contains (a +:+ b +:+ c) b = true.
Proof.
  induction a as [|d a IH].
  - change (Contains (b +:+ c) b = true).
    destruct (b +:+ c) eqn:E; cbn [Contains]; rewrite <- E, HasPrefix_append;
      reflexivity.
  - change (Contains (String d (a +:+ b +:+ c)) b = true).
    cbn [Contains]. rewrite IH. apply orb_true_r.
Qed.

(** X3.  The marker is looked for anywhere in the body: whatever text
    stands before and after [is_valid:true], the assertion is taken as
    confirmed. *)
Theorem ValidateCallback_marker_anywhere transport sa (m : Values) log before after :
  Get m "openid.mode" = "id_res" →
  confirmationBody transport log m = Some (before +:+ "is_valid:true" +:+ after) →
  returned (ValidateCallback transport (mkState sa (Some m) log))
  = Some (lastSegment (Get m "openid.claimed_id"), None).
Proof.
  intros Hmode Hbody.
  by rewrite (ValidateCallback_confirmed _ _ _ _ _ Hmode Hbody
                (Contains_inside before "is_valid:true" after)).
Qed.

Lemma ValidateCallback_marker_anywhere_witness :
  Get sampleCallback "openid.mode" = "id_res"
  ∧ returned (ValidateCallback
                (answering "200 OK" 200 "error:not_is_valid:true_at_all")
                (mkState sampleAuther (Some sampleCallback) []))
    = Some ("76561197960287930", None).
Proof.
  split; [reflexivity|].
  exact (ValidateCallback_marker_anywhere
           (answering "200 OK" 200 "error:not_is_valid:true_at_all")
           sampleAuther sampleCallback [] "error:not_" "_at_all"
           eq_refl eq_refl).
Defined.

(** X4.  [ValidateCallback] reads nothing of the confirmation response
    but its body: two networks whose answers differ only in status code
    and status text give the same result and the same state. *)
Theorem ValidateCallback_reads_only_the_body (t t' : RoundTripper) σ :
  sameBodies t t' →
  ValidateCallback t σ = ValidateCallback t' σ.
Proof.
  intros Hsame.
  destruct (decide (param σ "openid.mode" = "id_res")) as [Hmode|Hmode].
  - destruct (param_id_res σ Hmode) as (m & Hvals & Hm).
    rewrite !(ValidateCallback_id_res _ σ m Hvals Hm).
    specialize (Hsame (sent σ) (confirmationRequest m)).
    destruct (t (sent σ) (confirmationRequest m)) as [msg|res];
      destruct (t' (sent σ) (confirmationRequest m)) as [msg'|res'];
      cbn in Hsame; try contradiction; by rewrite Hsame.
  - by rewrite !(ValidateCallback_other_mode _ σ Hmode).
Qed.

Lemma ValidateCallback_reads_only_the_body_witness :
  sameBodies (answering "200 OK" 200 "is_valid:true")
             (answering "502 Bad Gateway" 502 "is_valid:true")
  ∧ ValidateCallback (answering "200 OK" 200 "is_valid:true")
      (mkState sampleAuther (Some sampleCallback) [])
    = ValidateCallback (answering "502 Bad Gateway" 502 "is_valid:true")
        (mkState sampleAuther (Some sampleCallback) []).
Proof.
  assert (H : sameBodies (answering "200 OK" 200 "is_valid:true")
                         (answering "502 Bad Gateway" 502 "is_valid:true"))
    by (intros log rq; reflexivity).
  split; [exact H|].
  exact (ValidateCallback_reads_only_the_body _ _ _ H).
Defined.

(** The last piece of a split text: the text ends with it, it holds no
    separator, and what stands before it is empty or ends with the
    separator. *)
Lemma Split_last (s : string) (sep : ascii) :
  ∃ prefix,
    s = prefix +:+ List.last (Split s sep) EmptyString
    ∧ ContainsByte (List.last (Split s sep) EmptyString) sep = false
    ∧ ((prefix = EmptyString ∧ Split s sep = [s])
       ∨ (HasSuffixByte prefix sep = true
          ∧ ∃ x y l, Split s sep = x :: y :: l)).
Proof.
  induction s as [|c s (prefix & Hs & Hlast & Hshape)].
  - exists EmptyString. repeat split; auto.
  - cbn [Split]. destruct (Ascii.eqb c sep) eqn:Hc.
    + apply Ascii.eqb_eq in Hc as ->. exists (String sep prefix).
      destruct (Split s sep) as [|x l] eqn:Hsplit;
        [by destruct (Split_nonempty s sep)|].
      change (List.last (EmptyString :: x :: l) EmptyString)
        with (List.last (x :: l) EmptyString).
      split; [by rewrite Hs at 1|]. split; [exact Hlast|]. right. split; [|eauto].
      destruct Hshape as [[-> _]|[Hsuffix _]].
      * cbn. apply Ascii.eqb_refl.
      * rewrite HasSuffixByte_cons; [exact Hsuffix|by destruct prefix].
    + destruct Hshape as [[-> Hone]|[Hsuffix (x & y & l & Hsplit)]].
      * rewrite Hone in *. cbn [List.last] in *. exists EmptyString.
        split; [reflexivity|]. split; [|by left].
        cbn [ContainsByte]. by rewrite Hc, Hlast.
      * rewrite Hsplit in *. exists (String c prefix).
        change (List.last (String c x :: y :: l) EmptyString)
          with (List.last (x :: y :: l) EmptyString).
        split; [by rewrite Hs at 1|]. split; [exact Hlast|]. right. split; [|eauto].
        rewrite HasSuffixByte_cons; [exact Hsuffix|by destruct prefix].
Qed.

(** X5.  The identifier of an accepted callback is what follows the last
    [/] of [openid.claimed_id]: the claimed identifier is a prefix followed
    by the returned identifier, the returned identifier holds no [/], and
    the prefix is empty or ends with [/]. *)
Theorem ValidateCallback_identifier_follows_last_slash
    transport sa (m : Values) log text :
  Get m "openid.mode" = "id_res" →
  confirmationBody transport log m = Some text →
  Contains text "is_valid:true" = true →
  ∃ prefix steamid,
    returned (ValidateCallback transport (mkState sa (Some m) log))
    = Some (steamid, None)
    ∧ Get m "openid.claimed_id" = prefix +:+ steamid
    ∧ ContainsByte steamid "/" = false
    ∧ (prefix = EmptyString ∨ HasSuffixByte prefix "/" = true).
Proof.
  intros Hmode Hbody Hvalid.
  destruct (Split_last (Get m "openid.claimed_id") "/")
    as (prefix & Hs & Hlast & Hshape).
  exists prefix, (lastSegment (Get m "openid.claimed_id")).
  split; [by rewrite (ValidateCallback_confirmed _ _ _ _ _ Hmode Hbody Hvalid)|].
  split; [exact Hs|]. split; [exact Hlast|].
  destruct Hshape as [[-> _]|[Hsuffix _]]; auto.
Qed.

Lemma ValidateCallback_identifier_follows_last_slash_witness :
  Get sampleCallback "openid.mode" = "id_res"
  ∧ ∃ prefix steamid,
      returned (ValidateCallback (answering "200 OK" 200 "is_valid:true")
                  (mkState sampleAuther (Some sampleCallback) []))
      = Some (steamid, None)
      ∧ sampleClaimedId = prefix +:+ steamid
      ∧ ContainsByte steamid "/" = false.
Proof.
  split; [reflexivity|].
  destruct (ValidateCallback_identifier_follows_last_slash
              (answering "200 OK" 200 "is_valid:true") sampleAuther
              sampleCallback [] "is_valid:true" eq_refl eq_refl eq_refl)
    as (prefix & steamid & Hrun & Hs & Hlast & _).
  exists prefix, steamid. auto.
Defined.

(** X6.  A map that a call has taken with mode [id_res] cannot be
    validated again: its mode is now [check_authentication], so every later
    call with the same map, on whatever network, returns the mode error and
    sends nothing. *)
Theorem ValidateCallback_refuses_used_map transport transport' sa (m : Values) log r σ' :
  Get m "openid.mode" = "id_res" →
  ValidateCallback transport (mkState sa (Some m) log) = Returned r σ' →
  ValidateCallback transport' σ'
  = Returned (EmptyString,
              Some (fmtError "the openid.mode was not expected. got=636865636b5f61757468656e7469636174696f6e, expected=id_res"))
             σ'.
Proof.
  intros Hmode Hrun.
  assert (σ' = afterConfirmation (mkState sa (Some m) log) m) as ->.
  { rewrite (ValidateCallback_id_res transport (mkState sa (Some m) log) m
               eq_refl Hmode) in Hrun.
    cbn [sent] in Hrun.
    destruct (transport log (confirmationRequest m)) as [msg|res];
      [congruence|].
    destruct (failure (Body res)); [congruence|].
    destruct (Contains (content (Body res)) "is_valid:true"); congruence. }
  assert (Hparam : param (afterConfirmation (mkState sa (Some m) log) m) "openid.mode"
                   = "check_authentication").
  { unfold param, afterConfirmation, confirmationValues. cbn [vals].
    unfold Get. by rewrite lookup_insert_eq. }
  rewrite ValidateCallback_other_mode by (rewrite Hparam; discriminate).
  by rewrite Hparam.
Qed.

Lemma ValidateCallback_refuses_used_map_witness :
  Get sampleCallback "openid.mode" = "id_res"
  ∧ ∃ σ',
      stateAfter (ValidateCallback (answering "200 OK" 200 "is_valid:true")
                    (mkState sampleAuther (Some sampleCallback) [])) = Some σ'
      ∧ returned (ValidateCallback (answering "200 OK" 200 "is_valid:true") σ')
        = Some (EmptyString,
                Some (fmtError "the openid.mode was not expected. got=636865636b5f61757468656e7469636174696f6e, expected=id_res")).
Proof.
  split; [reflexivity|]. eexists. split; [reflexivity|].
  by rewrite (ValidateCallback_refuses_used_map
                (answering "200 OK" 200 "is_valid:true")
                (answering "200 OK" 200 "is_valid:true")
                sampleAuther sampleCallback [] _ _ eq_refl eq_refl).
Defined.

(** X7.  [ValidateCallback] returns a nil error only for a confirmed
    assertion: the mode was [id_res], the POST was answered, its body was
    read to the end and held [is_valid:true], and the identifier is the
    last segment of [openid.claimed_id].  With an error the identifier is
    empty. *)
Theorem ValidateCallback_success_only_if_confirmed transport σ steamid err σ' :
  ValidateCallback transport σ = Returned (steamid, err) σ' →
  match err with
  | Some _ => steamid = EmptyString
  | None =>
      ∃ m text,
        vals σ = Some m
        ∧ Get m "openid.mode" = "id_res"
        ∧ confirmationBody transport (sent σ) m = Some text
        ∧ Contains text "is_valid:true" = true
        ∧ steamid = lastSegment (Get m "openid.claimed_id")
        ∧ σ' = afterConfirmation σ m
  end.
Proof.
  destruct (decide (param σ "openid.mode" = "id_res")) as [Hmode|Hmode].
  - destruct (param_id_res σ Hmode) as (m & Hvals & Hm).
    rewrite (ValidateCallback_id_res transport σ m Hvals Hm).
    unfold confirmationBody.
    destruct (transport (sent σ) (confirmationRequest m)) as [msg|res] eqn:Hreply;
      [by intros [= <- <- _]|].
    destruct (failure (Body res)) eqn:Hfailure; [by intros [= <- <- _]|].
    destruct (Contains (content (Body res)) "is_valid:true") eqn:Hvalid;
      [|by intros [= <- <- _]].
    intros [= <- <- <-]. exists m, (content (Body res)).
    repeat split; try assumption. by rewrite Hreply, Hfailure.
  - rewrite (ValidateCallback_other_mode transport σ Hmode).
    by intros [= <- <- _].
Qed.

Lemma ValidateCallback_success_only_if_confirmed_witness :
  ValidateCallback (answering "200 OK" 200 "is_valid:true")
    (mkState sampleAuther (Some sampleCallback) [])
  = Returned ("76561197960287930", None)
      (afterConfirmation (mkState sampleAuther (Some sampleCallback) []) sampleCallback)
  ∧ ∃ m text,
      Get m "openid.mode" = "id_res"
      ∧ confirmationBody (answering "200 OK" 200 "is_valid:true") [] m = Some text
      ∧ Contains text "is_valid:true" = true.
Proof.
  split; [reflexivity|].
  destruct (ValidateCallback_success_only_if_confirmed
              (answering "200 OK" 200 "is_valid:true")
              (mkState sampleAuther (Some sampleCallback) [])
              "76561197960287930" None _ eq_refl)
    as (m & text & _ & Hmode & Hbody & Hvalid & _).
  exists m, text. auto.
Defined.

Lemma sortedKeys_profile (a b : string) :
  sortedKeys (Set_ (Set_ ∅ "key" a) "steamids" b) = ["key"; "steamids"].
Proof. reflexivity. Qed.

Lemma sortedKeys_auth (a b c d e f : list string) :
  sortedKeys (<["openid.identity" := f]> (<["openid.claimed_id" := e]>
    (<["openid.return_to" := d]> (<["openid.realm" := c]>
    (<["openid.mode" := b]> (<["openid.ns" := a]> ∅))))))
  = ["openid.claimed_id"; "openid.identity"; "openid.mode"; "openid.ns";
     "openid.realm"; "openid.return_to"].
Proof. reflexivity. Qed.

Lemma Encode_profile (a b : string) :
  Encode (Set_ (Set_ ∅ "key" a) "steamids" b)
  = "key=" +:+ QueryEscape a +:+ "&steamids=" +:+ QueryEscape b.
Proof. rewrite Encode_joinAmp, sortedKeys_profile. reflexivity. Qed.

Lemma Encode_authQuery (sa : SteamAuther) (returnUrl : string) :
  Encode (authQuery sa
            (mkURL "https" "" "steamcommunity.com" "/openid/login" false "" "")
            returnUrl)
  = "openid.claimed_id=http%3A%2F%2Fspecs.openid.net%2Fauth%2F2.0%2Fidentifier_select&openid.identity=http%3A%2F%2Fspecs.openid.net%2Fauth%2F2.0%2Fidentifier_select&openid.mode=checkid_setup&openid.ns=http%3A%2F%2Fspecs.openid.net%2Fauth%2F2.0&openid.realm="
    +:+ QueryEscape (realm sa) +:+ "&openid.return_to=" +:+ QueryEscape returnUrl.
Proof.
  rewrite Encode_joinAmp. unfold authQuery. rewrite Query_without_query.
  unfold Set_. rewrite sortedKeys_auth. reflexivity.
Qed.

(** ** Further properties of [GetSteamUser] *)

Lemma profileRequest_target (sa : SteamAuther) (steamid64 : string) :
  profileRequest sa steamid64
  = mkRequest "GET"
      ("http://api.steampowered.com/ISteamUser/GetPlayerSummaries/v0002?key="
       +:+ QueryEscape (apiKey sa) +:+ "&steamids=" +:+ QueryEscape steamid64)
      "" "".
Proof. unfold profileRequest. rewrite Encode_profile. reflexivity. Qed.

(** X8.  Every call of [GetSteamUser], whatever comes of it, sends one
    request and changes nothing else: a GET of the summaries endpoint with
    the query [key=] the escaped API key [&steamids=] the escaped
    identifier, in this order. *)
Theorem GetSteamUser_sends_one_get transport scan steamid64 σ :
  ∃ r,
    GetSteamUser transport scan steamid64 σ
    = Returned r
        (mkState (receiver σ) (vals σ)
           (sent σ ++
            [mkRequest "GET"
               ("http://api.steampowered.com/ISteamUser/GetPlayerSummaries/v0002?key="
                +:+ QueryEscape (apiKey (receiver σ))
                +:+ "&steamids=" +:+ QueryEscape steamid64)
               "" ""])%list).
Proof.
  destruct (GetSteamUser_returns transport scan steamid64 σ) as [r Hrun].
  exists r. rewrite Hrun. unfold afterRequest.
  by rewrite profileRequest_target.
Qed.

Lemma Parse_profile_with_query (query : string) :
  allBytes encodedByte query = true → isEmpty query = false →
  Parse ("http://api.steampowered.com/ISteamUser/GetPlayerSummaries/v0002?"
         +:+ query)
  = inr (mkURL "http" "" "api.steampowered.com"
           "/ISteamUser/GetPlayerSummaries/v0002" false query "").
Proof.
  intros Hbytes Hq. unfold Parse.
  assert (Hhash : ContainsByte
                    ("http://api.steampowered.com/ISteamUser/GetPlayerSummaries/v0002?"
                     +:+ query) "#" = false).
  { rewrite ContainsByte_app, (encoded_no_byte query "#") by done. reflexivity. }
  rewrite (Cut_absent _ _ Hhash). unfold parse.
  assert (stringContainsCTLByte
            ("http://api.steampowered.com/ISteamUser/GetPlayerSummaries/v0002?"
             +:+ query) = false) as ->.
  { generalize (stringContainsCTLByte_encoded query Hbytes).
    unfold String.append at 1. simpl. tauto. }
  change ("http://api.steampowered.com/ISteamUser/GetPlayerSummaries/v0002?" +:+ query)
    with ("http:" +:+ "//api.steampowered.com/ISteamUser/GetPlayerSummaries/v0002"
          +:+ String "?" query).
  change (("http:" +:+ "//api.steampowered.com/ISteamUser/GetPlayerSummaries/v0002"
           +:+ String "?" query =? "*")%string) with false.
  change (getScheme ("http:" +:+ "//api.steampowered.com/ISteamUser/GetPlayerSummaries/v0002"
                     +:+ String "?" query))
    with (inr ("http", "//api.steampowered.com/ISteamUser/GetPlayerSummaries/v0002"
                       +:+ String "?" query)
          : string + string * string).
  cbn beta iota.
  assert (HasSuffixByte ("//api.steampowered.com/ISteamUser/GetPlayerSummaries/v0002"
                         +:+ String "?" query) "?" = false) as ->.
  { rewrite HasSuffixByte_app by (by destruct query).
    rewrite HasSuffixByte_cons by done.
    apply HasSuffixByte_absent, encoded_no_byte; done. }
  cbn [andb]. rewrite Cut_at by reflexivity. reflexivity.
Qed.

(** X9.  The URL [GetSteamUser] requests parses back to the summaries
    endpoint, and its query to exactly two parameters: [key] with the API
    key as its one value and [steamids] with the identifier as its one
    value, whatever bytes the two hold ([&], [=], [#], spaces, ...).  No
    identifier can add to or replace the parameters. *)
Theorem GetSteamUser_request_parses_back transport scan steamid64 σ :
  ∃ r rq u,
    GetSteamUser transport scan steamid64 σ = Returned r (afterRequest σ rq)
    ∧ Method rq = "GET"
    ∧ Parse (Target rq) = inr u
    ∧ Scheme u = "http" ∧ Host u = "api.steampowered.com"
    ∧ Path u = "/ISteamUser/GetPlayerSummaries/v0002"
    ∧ Fragment u = EmptyString
    ∧ (ParseQuery (RawQuery u)).2 = false
    ∧ Query u !! "key" = Some [apiKey (receiver σ)]
    ∧ Query u !! "steamids" = Some [steamid64]
    ∧ ∀ key, key ≠ "key" → key ≠ "steamids" → Query u !! key = None.
Proof.
  destruct (GetSteamUser_returns transport scan steamid64 σ) as [r Hrun].
  set (q := Set_ (Set_ ∅ "key" (apiKey (receiver σ))) "steamids" steamid64).
  exists r, (profileRequest (receiver σ) steamid64),
         (mkURL "http" "" "api.steampowered.com"
            "/ISteamUser/GetPlayerSummaries/v0002" false (Encode q) "").
  split; [exact Hrun|]. split; [reflexivity|].
  assert (Hne : isEmpty (Encode q) = false).
  { unfold q. rewrite Encode_profile. reflexivity. }
  split.
  { unfold profileRequest. fold q. cbn [Target].
    unfold String_. cbn [Scheme Opaque Host Path ForceQuery RawQuery Fragment].
    rewrite Hne. apply Parse_profile_with_query; [apply Encode_bytes|exact Hne]. }
  cbn [Scheme Host Path Fragment RawQuery]. unfold Query. cbn [RawQuery].
  repeat (split; [reflexivity|]).
  split; [apply ParseQuery_Encode|].
  rewrite !ParseQuery_Encode_lookup. unfold q, Set_.
  split; [by rewrite lookup_insert_ne, lookup_insert_eq|].
  split; [by rewrite lookup_insert_eq|].
  intros key H1 H2. rewrite ParseQuery_Encode_lookup.
  by rewrite !lookup_insert_ne, lookup_empty.
Qed.

(** X10.  When the GET fails, or the body cannot be decoded, [GetSteamUser]
    returns no profile and an error that wraps the failure: its text is the
    text of the failure after [get steam user (<id>): ] and the step, and
    [errors.Unwrap] gives the failure back.  Neither error is [ErrNoData]. *)
Theorem GetSteamUser_failure_wraps_cause transport scan steamid64 σ :
  (∀ msg,
     transport (sent σ) (profileRequest (receiver σ) steamid64) = inl msg →
     ∃ err,
       returned (GetSteamUser transport scan steamid64 σ) = Some (None, Some err)
       ∧ Error err = "get steam user (" +:+ steamid64 +:+ "): make get request: " +:+ msg
       ∧ Unwrap err = Some (external msg)
       ∧ Is err ErrNoData = false)
  ∧ (∀ res msg,
       transport (sent σ) (profileRequest (receiver σ) steamid64) = inr res →
       StatusCode res = 200 →
       Decode scan (Body res) = inl (external msg) →
       ∃ err,
         returned (GetSteamUser transport scan steamid64 σ) = Some (None, Some err)
         ∧ Error err = "get steam user (" +:+ steamid64 +:+ "): decode response body: " +:+ msg
         ∧ Unwrap err = Some (external msg)
         ∧ Is err ErrNoData = false).
Proof.
  rewrite GetSteamUser_unfold. cbn zeta. split.
  - intros msg ->. eexists. split; [reflexivity|].
    split; [|split; [reflexivity|apply Is_wrapped_external]].
    unfold Errorf_w, getSteamUserPrefix. cbn [Error].
    by rewrite !append_assoc.
  - intros res msg -> -> ->. eexists. split; [reflexivity|].
    split; [|split; [reflexivity|apply Is_wrapped_external]].
    unfold Errorf_w, getSteamUserPrefix. cbn [Error].
    by rewrite !append_assoc.
Qed.

Lemma GetSteamUser_failure_wraps_cause_witness :
  ∃ err,
    returned (GetSteamUser unreachable noJson "76561197960287930"
                (mkState sampleAuther None []))
    = Some (None, Some err)
    ∧ Error err = "get steam user (76561197960287930): make get request: dial tcp: connection refused"
    ∧ Unwrap err = Some (external "dial tcp: connection refused").
Proof.
  destruct (proj1 (GetSteamUser_failure_wraps_cause unreachable noJson
                     "76561197960287930" (mkState sampleAuther None []))
              "dial tcp: connection refused" eq_refl)
    as (err & Hrun & Herr & Hun & _).
  exists err. auto.
Defined.

Lemma GetSteamUser_profile_cases transport scan steamid64 σ :
  ∃ user err σ',
    GetSteamUser transport scan steamid64 σ = Returned (user, err) σ'
    ∧ (is_Some user ↔ err = None).
Proof.
  rewrite GetSteamUser_unfold. cbn zeta.
  destruct (transport (sent σ) (profileRequest (receiver σ) steamid64))
    as [msg|res].
  { eexists _, _, _. split; [reflexivity|]. split; [by intros []|done]. }
  destruct (StatusCode res =? 200).
  2: { eexists _, _, _. split; [reflexivity|]. split; [by intros []|done]. }
  destruct (Decode scan (Body res)) as [e|d].
  { eexists _, _, _. split; [reflexivity|]. split; [by intros []|done]. }
  destruct (items (Players (Response_ d))).
  - eexists _, _, _. split; [reflexivity|]. split; [by intros []|done].
  - eexists _, _, _. split; [reflexivity|]. split; [done|eauto].
Qed.

(** X11.  [GetSteamUser] returns a profile or an error, never both and
    never neither. *)
Theorem GetSteamUser_profile_or_error transport scan steamid64 σ :
  ∃ user err σ',
    GetSteamUser transport scan steamid64 σ = Returned (user, err) σ'
    ∧ (is_Some user ↔ err = None)
    ∧ (user = None ↔ is_Some err).
Proof.
  destruct (GetSteamUser_profile_cases transport scan steamid64 σ)
    as (user & err & σ' & Hrun & Hxor).
  exists user, err, σ'. split; [exact Hrun|]. split; [exact Hxor|].
  destruct user, err; split; intros H; try done;
    destruct Hxor as [H1 H2]; first [by specialize (H1 ltac:(eauto)) | by destruct (H2 eq_refl) | by destruct H].
Qed.

Lemma selectField_none (name key : string) :
  String.eqb (foldName key) (foldName name) = false →
  selectField (λ _ : (), name) [()] key = None.
Proof.
  intros Hfold. unfold selectField. cbn [List.find].
  destruct (String.eqb_spec name key) as [->|_].
  - by rewrite String.eqb_refl in Hfold.
  - by rewrite String.eqb_sym, Hfold.
Qed.

Lemma decodeMembers_noMember {S} (name : string)
    (set : () → json → S → option S) (members : list (string * json)) (cur : S) :
  noMember name members = true →
  decodeMembers (λ _ : (), name) [()] set members cur = Some cur.
Proof.
  induction members as [|[k v] members IH]; [reflexivity|].
  cbn [noMember forallb fst]. rewrite andb_true_iff, negb_true_iff.
  intros [Hk Hrest]. cbn [decodeMembers].
  rewrite (selectField_none name k Hk). by apply IH.
Qed.

(** X12.  A body that is [null], or an object none of whose member names
    folds to [RESPONSE] (the empty object, an object that holds only an
    error message, ...), is no decoding error: with status 200,
    [GetSteamUser] returns [ErrNoData]. *)
Theorem GetSteamUser_no_response_member transport (scan : Decoder) steamid64 σ
    res j :
  transport (sent σ) (profileRequest (receiver σ) steamid64) = inr res →
  StatusCode res = 200 →
  scan (Body res) = inr j →
  (j = JNull ∨ ∃ members, j = JObject members ∧ noMember "response" members = true) →
  returned (GetSteamUser transport scan steamid64 σ) = Some (None, Some ErrNoData).
Proof.
  intros Hres Hstatus Hscan Hj. rewrite GetSteamUser_unfold. cbn zeta.
  rewrite Hres, Hstatus. cbn iota.
  assert (Decode scan (Body res) = inr zeroData) as ->; [|reflexivity].
  unfold Decode. rewrite Hscan.
  destruct Hj as [->|(members & -> & Hno)]; [reflexivity|].
  unfold decodeData, decodeStruct.
  by rewrite (decodeMembers_noMember "response" _ members zeroData Hno).
Qed.

Lemma GetSteamUser_no_response_member_witness :
  noMember "response" [("error", JString "Forbidden")] = true
  ∧ returned (GetSteamUser (answering "200 OK" 200 "")
                (reading (JObject [("error", JString "Forbidden")]))
                "76561197960287930" (mkState sampleAuther None []))
    = Some (None, Some ErrNoData).
Proof.
  split; [reflexivity|].
  apply (GetSteamUser_no_response_member (answering "200 OK" 200 "")
           (reading (JObject [("error", JString "Forbidden")]))
           "76561197960287930" (mkState sampleAuther None [])
           (mkResponse "200 OK" 200 (mkBody "" None))
           (JObject [("error", JString "Forbidden")]) eq_refl eq_refl eq_refl).
  right. by exists [("error", JString "Forbidden")].
Defined.

(** ** Further properties of the decoding of a [SteamUser] *)

(** What one member does to a field it selects. *)
Lemma setSteamUserField_accepts (f : Field) (v : json) (cur : SteamUser) :
  if accepts f v then
    ∃ cur', setSteamUserField f v cur = Some cur'
            ∧ playerValue f cur'
              = match v with JNull => playerValue f cur | _ => v end
            ∧ ∀ f', f' ≠ f → playerValue f' cur' = playerValue f' cur
  else setSteamUserField f v cur = None.
Proof.
  destruct cur.
  destruct f, v as [| |n| | | |]; cbn [accepts isStringField negb andb];
    try destruct (fitsInt n) eqn:Hfits;
    cbn [setSteamUserField decodeString decodeInt mapResult playerValue];
    rewrite ?Hfits; cbn [mapResult];
    try reflexivity;
    (eexists; split; [reflexivity|]; split; [reflexivity|]);
    intros f' Hne; destruct f'; try reflexivity; congruence.
Qed.

Lemma decodeMembers_accepted (members : list (string * json)) :
  ∀ cur : SteamUser,
    if acceptedMembers members then
      ∃ u, decodeMembers jsonTag steamUserFields setSteamUserField members cur
           = Some u
           ∧ ∀ f, playerValue f u = lastWritten f members (playerValue f cur)
    else
      decodeMembers jsonTag steamUserFields setSteamUserField members cur = None.
Proof.
  induction members as [|[k v] members IH]; intros cur.
  - cbn. eauto.
  - cbn [acceptedMembers forallb decodeMembers fst snd].
    unfold lastWritten. cbn [foldl]. unfold writes. cbn [fst snd].
    fold (acceptedMembers members).
    destruct (selectField jsonTag steamUserFields k) as [f|] eqn:Hsel.
    + pose proof (setSteamUserField_accepts f v cur) as Hset.
      destruct (accepts f v); cbn [andb].
      * destruct Hset as (cur' & -> & Hf & Hframe).
        specialize (IH cur'). destruct (acceptedMembers members).
        -- destruct IH as (u & -> & Hu). exists u. split; [reflexivity|].
           intros g. rewrite Hu. unfold lastWritten. f_equal.
           destruct (decide (g = f)) as [->|Hne].
           ++ rewrite Hf. destruct v; try reflexivity;
                by rewrite bool_decide_eq_true_2.
           ++ rewrite (Hframe g Hne).
              destruct v; try reflexivity;
                by rewrite bool_decide_eq_false_2 by congruence.
        -- exact IH.
      * by rewrite Hset.
    + specialize (IH cur). destruct (acceptedMembers members).
      * destruct IH as (u & -> & Hu). exists u. split; [reflexivity|].
        intros g. rewrite Hu. unfold lastWritten. f_equal. by destruct v.
      * exact IH.
Qed.

(** X13.  For a body that holds one player object, [GetSteamUser] returns
    a profile exactly when every member of the object that selects a field
    holds [null], a string for a [string] field, or an integer that fits
    for an [int] field.  One member of the wrong type (an integer written
    as a string, a fraction, an array, ...) makes the whole call fail with
    a decoding error, whatever the other members hold. *)
Theorem GetSteamUser_profile_iff_accepted transport (scan : Decoder) steamid64 σ
    res members :
  transport (sent σ) (profileRequest (receiver σ) steamid64) = inr res →
  StatusCode res = 200 →
  scan (Body res) = inr (envelope [JObject members]) →
  (acceptedMembers members = true →
   ∃ u, returned (GetSteamUser transport scan steamid64 σ) = Some (Some u, None))
  ∧ (acceptedMembers members = false →
     ∃ msg,
       returned (GetSteamUser transport scan steamid64 σ)
       = Some (None,
               Some (Errorf_w (getSteamUserPrefix steamid64
                               +:+ "decode response body: ") (external msg)))).
Proof.
  intros Hres Hstatus Hscan. rewrite GetSteamUser_unfold. cbn zeta.
  rewrite Hres, Hstatus. cbn iota. unfold Decode.
  rewrite Hscan, decodeData_one_player. unfold decodeSteamUser, decodeStruct.
  pose proof (decodeMembers_accepted members zeroSteamUser) as H.
  split; intros Hacc; rewrite Hacc in H.
  - destruct H as (u & -> & _). by exists u.
  - rewrite H. by exists (typeErrorText scan (Body res)).
Qed.

Lemma GetSteamUser_profile_iff_accepted_witness :
  acceptedMembers [("steamid", JString "76561197960287930");
                   ("personastate", JString "1")] = false
  ∧ ∃ msg,
      returned (GetSteamUser (answering "200 OK" 200 "")
                  (reading (envelope [JObject [("steamid", JString "76561197960287930");
                                               ("personastate", JString "1")]]))
                  "76561197960287930" (mkState sampleAuther None []))
      = Some (None,
              Some (Errorf_w (getSteamUserPrefix "76561197960287930"
                              +:+ "decode response body: ") (external msg))).
Proof.
  split; [reflexivity|].
  exact (proj2 (GetSteamUser_profile_iff_accepted (answering "200 OK" 200 "")
                  (reading (envelope [JObject [("steamid", JString "76561197960287930");
                                               ("personastate", JString "1")]]))
                  "76561197960287930" (mkState sampleAuther None [])
                  _ _ eq_refl eq_refl eq_refl) eq_refl).
Defined.

(** X14.  When the members of the one player object are accepted, each
    field of the profile [GetSteamUser] returns holds the value of the last
    member that selects it with a value other than [null], and the zero
    value ([""] or [0]) when there is none: a missing name and a [null]
    leave the zero value, and of two members for one field the later one
    counts. *)
Theorem GetSteamUser_fields_last_written transport (scan : Decoder) steamid64 σ
    res members :
  transport (sent σ) (profileRequest (receiver σ) steamid64) = inr res →
  StatusCode res = 200 →
  scan (Body res) = inr (envelope [JObject members]) →
  acceptedMembers members = true →
  ∃ u,
    returned (GetSteamUser transport scan steamid64 σ) = Some (Some u, None)
    ∧ ∀ f, playerValue f u
           = lastWritten f members (playerValue f zeroSteamUser).
Proof.
  intros Hres Hstatus Hscan Hacc. rewrite GetSteamUser_unfold. cbn zeta.
  rewrite Hres, Hstatus. cbn iota. unfold Decode.
  rewrite Hscan, decodeData_one_player. unfold decodeSteamUser, decodeStruct.
  pose proof (decodeMembers_accepted members zeroSteamUser) as H.
  rewrite Hacc in H. destruct H as (u & -> & Hu). by exists u.
Qed.

Lemma GetSteamUser_fields_last_written_witness :
  acceptedMembers [("steamid", JString "1"); ("personaname", JNull);
                   ("STEAMID", JString "76561197960287930")] = true
  ∧ ∃ u,
      returned (GetSteamUser (answering "200 OK" 200 "")
                  (reading (envelope [JObject [("steamid", JString "1");
                                               ("personaname", JNull);
                                               ("STEAMID", JString "76561197960287930")]]))
                  "76561197960287930" (mkState sampleAuther None []))
      = Some (Some u, None)
      ∧ SteamID u = "76561197960287930" ∧ PersonaName u = EmptyString
      ∧ PersonaState u = 0.
Proof.
  split; [reflexivity|].
  destruct (GetSteamUser_fields_last_written (answering "200 OK" 200 "")
              (reading (envelope [JObject [("steamid", JString "1");
                                           ("personaname", JNull);
                                           ("STEAMID", JString "76561197960287930")]]))
              "76561197960287930" (mkState sampleAuther None [])
              _ _ eq_refl eq_refl eq_refl eq_refl) as (u & Hrun & Hu).
  exists u. split; [exact Hrun|].
  pose proof (Hu fSteamID) as H1. pose proof (Hu fPersonaName) as H2.
  pose proof (Hu fPersonaState) as H3.
  change (JString (SteamID u) = JString "76561197960287930") in H1.
  change (JString (PersonaName u) = JString EmptyString) in H2.
  change (JInt (PersonaState u) = JInt 0) in H3.
  split; [congruence|]. split; congruence.
Defined.

Lemma jsonTag_fold_inj (f g : Field) :
  foldName (jsonTag f) = foldName (jsonTag g) → f = g.
Proof. destruct f, g; vm_compute; intros H; (reflexivity || discriminate H). Qed.

(** X15.  The json tags of [SteamUser] are matched without regard to
    case: a member name selects a field exactly when it folds to the same
    text as the tag of the field.  So [SteamID] and [STEAMID] fill the
    field tagged [steamid], and a name that folds to no tag is skipped. *)
Theorem SteamUser_tags_match_by_fold (key : string) (f : Field) :
  selectField jsonTag steamUserFields key = Some f
  ↔ foldName key = foldName (jsonTag f).
Proof.
  unfold selectField. split.
  - destruct (List.find (λ g, String.eqb (jsonTag g) key) steamUserFields)
      as [g|] eqn:Hexact.
    + intros [= ->]. apply List.find_some in Hexact as [_ Heq].
      apply String.eqb_eq in Heq. by rewrite Heq.
    + intros Hfold. apply List.find_some in Hfold as [_ Heq].
      apply String.eqb_eq in Heq. by rewrite Heq.
  - intros Hfold.
    destruct (List.find (λ g, String.eqb (jsonTag g) key) steamUserFields)
      as [g|] eqn:Hexact.
    + apply List.find_some in Hexact as [_ Heq]. apply String.eqb_eq in Heq.
      f_equal. apply jsonTag_fold_inj. by rewrite Heq.
    + rewrite Hfold. by destruct f.
Qed.

Lemma SteamUser_tags_match_by_fold_witness :
  selectField jsonTag steamUserFields "SteamID" = Some fSteamID
  ∧ foldName "SteamID" = foldName (jsonTag fSteamID).
Proof.
  split; [|reflexivity].
  exact (proj2 (SteamUser_tags_match_by_fold "SteamID" fSteamID) eq_refl).
Defined.

(** ** Further properties of [GetAuthUrl] *)

(** X16.  The URL [GetAuthUrl] returns, for every realm and return URL:
    the login endpoint, then the six parameters in the order of their
    names, the realm and the return URL query-escaped.  The call sends
    nothing and changes nothing. *)
Theorem GetAuthUrl_url (returnUrl : string) (σ : State) :
  GetAuthUrl returnUrl σ
  = Returned
      ("https://steamcommunity.com/openid/login?openid.claimed_id=http%3A%2F%2Fspecs.openid.net%2Fauth%2F2.0%2Fidentifier_select&openid.identity=http%3A%2F%2Fspecs.openid.net%2Fauth%2F2.0%2Fidentifier_select&openid.mode=checkid_setup&openid.ns=http%3A%2F%2Fspecs.openid.net%2Fauth%2F2.0&openid.realm="
       +:+ QueryEscape (realm (receiver σ))
       +:+ "&openid.return_to=" +:+ QueryEscape returnUrl,
       None) σ.
Proof.
  rewrite GetAuthUrl_run, Parse_login_endpoint. unfold authUrlFrom.
  rewrite (String_with_query _ (Encode_authQuery_nonempty (receiver σ) returnUrl)).
  by rewrite Encode_authQuery.
Qed.

Lemma QueryEscape_plain (s : string) :
  stringContainsCTLByte (QueryEscape s) = false
  ∧ ContainsByte (QueryEscape s) " " = false
  ∧ ContainsByte (QueryEscape s) "#" = false
  ∧ ContainsByte (QueryEscape s) "&" = false
  ∧ ContainsByte (QueryEscape s) "034" = false.
Proof.
  split.
  - apply stringContainsCTLByte_encoded.
    apply (allBytes_weaken escapedByte); [|apply QueryEscape_bytes].
    intros c Hc. by destruct (escapedByte_no_separator c Hc) as (_ & _ & ?).
  - repeat split; by apply QueryEscape_no_byte.
Qed.

Lemma stringContainsCTLByte_app (a b : string) :
  stringContainsCTLByte (a +:+ b)
  = stringContainsCTLByte a || stringContainsCTLByte b.
Proof.
  induction a as [|c a IH]; [reflexivity|].
  change (stringContainsCTLByte (String c (a +:+ b))
          = stringContainsCTLByte (String c a) || stringContainsCTLByte b).
  cbn [stringContainsCTLByte]. by rewrite IH, !orb_assoc.
Qed.

(** X17.  Whatever bytes the realm and the return URL hold, the URL
    [GetAuthUrl] returns holds no control byte (no line break), no space,
    no double quote and no [#]. *)
Theorem GetAuthUrl_url_is_plain (returnUrl : string) (σ : State) :
  ∃ url,
    returned (GetAuthUrl returnUrl σ) = Some (url, None)
    ∧ stringContainsCTLByte url = false
    ∧ ContainsByte url " " = false
    ∧ ContainsByte url "034" = false
    ∧ ContainsByte url "#" = false.
Proof.
  eexists. rewrite GetAuthUrl_run, Parse_login_endpoint. unfold authUrlFrom.
  rewrite (String_with_query _ (Encode_authQuery_nonempty (receiver σ) returnUrl)).
  rewrite Encode_authQuery. split; [reflexivity|].
  destruct (QueryEscape_plain (realm (receiver σ))) as (R1 & R2 & R3 & _ & R5).
  destruct (QueryEscape_plain returnUrl) as (U1 & U2 & U3 & _ & U5).
  rewrite !stringContainsCTLByte_app, !ContainsByte_app.
  rewrite R1, R2, R3, R5, U1, U2, U3, U5. repeat split; reflexivity.
Qed.

(** ** The handler of [GET /auth/callback] *)

Lemma authCallbackHandler_unfold transport scan rawQuery σ :
  authCallbackHandler transport scan rawQuery σ
  = match ValidateCallback transport
            (mkState (receiver σ) (Some (ParseQuery rawQuery).1) (sent σ)) with
    | Returned (_, Some err) σ1 =>
        Returned (mkReply [Error err +:+ newline] None EmptyString) σ1
    | Returned (steamid, None) σ1 =>
        match GetSteamUser transport scan steamid σ1 with
        | Returned (_, Some err) σ2 =>
            Returned (mkReply [Error err +:+ newline] None EmptyString) σ2
        | Returned (Some user, None) σ2 =>
            Returned (mkReply [formatUser user +:+ newline] (Some 200)
                        (PersonaName user +:+ " - " +:+ SteamID user)) σ2
        | Returned (None, None) σ2 =>
            Panicked "invalid memory address or nil pointer dereference"
        | Panicked reason => Panicked reason
        end
    | Panicked reason => Panicked reason
    end.
Proof.
  unfold authCallbackHandler, pass, mbind, Go_bind, mret, Go_ret.
  destruct (ValidateCallback transport _) as [[steamid [err|]] σ1|reason];
    [reflexivity| |reflexivity].
  destruct (GetSteamUser transport scan steamid σ1)
    as [[[user|] [err|]] σ2|reason]; reflexivity.
Qed.

(** The three ways a call of the handler goes. *)
Lemma authCallbackHandler_cases transport scan rawQuery σ :
  let m := (ParseQuery rawQuery).1 in
  let σ0 := mkState (receiver σ) (Some m) (sent σ) in
  let steamid := lastSegment (Get m "openid.claimed_id") in
  (∃ err σ1,
     ValidateCallback transport σ0 = Returned (EmptyString, Some err) σ1
     ∧ (σ1 = σ0 ∨ σ1 = afterConfirmation σ0 m)
     ∧ authCallbackHandler transport scan rawQuery σ
       = Returned (mkReply [Error err +:+ newline] None EmptyString) σ1)
  ∨ (∃ text,
       Get m "openid.mode" = "id_res"
       ∧ confirmationBody transport (sent σ) m = Some text
       ∧ Contains text "is_valid:true" = true
       ∧ ((∃ err,
             returned (GetSteamUser transport scan steamid (afterConfirmation σ0 m))
             = Some (None, Some err)
             ∧ authCallbackHandler transport scan rawQuery σ
               = Returned (mkReply [Error err +:+ newline] None EmptyString)
                   (afterRequest (afterConfirmation σ0 m)
                      (profileRequest (receiver σ) steamid)))
          ∨ (∃ user,
               returned (GetSteamUser transport scan steamid (afterConfirmation σ0 m))
               = Some (Some user, None)
               ∧ authCallbackHandler transport scan rawQuery σ
                 = Returned (mkReply [formatUser user +:+ newline] (Some 200)
                               (PersonaName user +:+ " - " +:+ SteamID user))
                     (afterRequest (afterConfirmation σ0 m)
                        (profileRequest (receiver σ) steamid))))).
Proof.
  intros m σ0 steamid. rewrite authCallbackHandler_unfold. fold m. fold σ0.
  destruct (decide (Get m "openid.mode" = "id_res")) as [Hmode|Hmode].
  - rewrite (ValidateCallback_id_res transport σ0 m eq_refl Hmode).
    unfold confirmationBody. cbn [sent σ0].
    destruct (transport (sent σ) (confirmationRequest m)) as [msg|res];
      [left; eauto 6|].
    destruct (failure (Body res)); [left; eauto 6|].
    destruct (Contains (content (Body res)) "is_valid:true") eqn:Hvalid;
      [|left; eauto 6].
    right. exists (content (Body res)).
    split; [done|]. split; [done|]. split; [done|].
    fold steamid.
    destruct (GetSteamUser_returns transport scan steamid (afterConfirmation σ0 m))
      as [[user err] Hrun].
    change (receiver (afterConfirmation σ0 m)) with (receiver σ) in Hrun.
    destruct (GetSteamUser_profile_cases transport scan steamid (afterConfirmation σ0 m))
      as (user' & err' & σ2 & Hrun' & Hxor).
    rewrite Hrun in Hrun'. injection Hrun' as <- <- _. rewrite Hrun.
    destruct Hxor as [Hsome Hnone]. destruct err as [err|].
    + left. exists err. destruct user as [user|].
      * by specialize (Hsome ltac:(eauto)).
      * split; reflexivity.
    + right. destruct (Hnone eq_refl) as [user' ->].
      exists user'. split; reflexivity.
  - left. rewrite (ValidateCallback_other_mode transport σ0 Hmode). eauto 6.
Qed.

(** X18.  The handler returns for every request (it never dereferences a
    nil profile), prints one line, leaves the [SteamAuther] as it was and
    sends at most two requests. *)
Theorem authCallbackHandler_returns transport scan rawQuery σ :
  ∃ reply σ' requests,
    authCallbackHandler transport scan rawQuery σ = Returned reply σ'
    ∧ receiver σ' = receiver σ
    ∧ sent σ' = (sent σ ++ requests)%list
    ∧ (List.length requests ≤ 2)%nat
    ∧ List.length (printed reply) = 1%nat.
Proof.
  destruct (authCallbackHandler_cases transport scan rawQuery σ)
    as [(err & σ1 & _ & [->| ->] & ->)
       |(text & _ & _ & _ & [(err & _ & ->)|(user & _ & ->)])].
  - eexists _, _, []. rewrite app_nil_r. repeat split; cbn; lia.
  - eexists _, _, [_]. repeat split; cbn; lia.
  - eexists _, _, [_; _]. unfold afterRequest, afterConfirmation.
    cbn [sent receiver]. rewrite <- app_assoc. repeat split; cbn; lia.
  - eexists _, _, [_; _]. unfold afterRequest, afterConfirmation.
    cbn [sent receiver]. rewrite <- app_assoc. repeat split; cbn; lia.
Qed.

(** X19.  The handler writes to the response only for a confirmed
    assertion whose profile was fetched.  If it called [WriteHeader] or
    wrote a byte, then the mode of the request was [id_res], the
    confirmation was answered with a body that held [is_valid:true], the
    profile of the last segment of [openid.claimed_id] was returned by
    [GetSteamUser], the status written is 200 and the body is the name,
    [ - ] and the identifier of that profile; the requests sent are the
    confirmation and then the profile request. *)
Theorem authCallbackHandler_writes_only_confirmed
    transport scan rawQuery σ reply σ' :
  authCallbackHandler transport scan rawQuery σ = Returned reply σ' →
  wroteHeader reply ≠ None ∨ written reply ≠ EmptyString →
  ∃ text user,
    Get (ParseQuery rawQuery).1 "openid.mode" = "id_res"
    ∧ confirmationBody transport (sent σ) (ParseQuery rawQuery).1 = Some text
    ∧ Contains text "is_valid:true" = true
    ∧ returned (GetSteamUser transport scan
                  (lastSegment (Get (ParseQuery rawQuery).1 "openid.claimed_id"))
                  (afterConfirmation
                     (mkState (receiver σ) (Some (ParseQuery rawQuery).1) (sent σ))
                     (ParseQuery rawQuery).1))
      = Some (Some user, None)
    ∧ reply = mkReply [formatUser user +:+ newline] (Some 200)
                (PersonaName user +:+ " - " +:+ SteamID user)
    ∧ sent σ'
      = (sent σ ++
         [confirmationRequest (ParseQuery rawQuery).1;
          profileRequest (receiver σ)
            (lastSegment (Get (ParseQuery rawQuery).1 "openid.claimed_id"))])%list.
Proof.
  intros Hrun Hwrote.
  destruct (authCallbackHandler_cases transport scan rawQuery σ)
    as [(err & σ1 & _ & _ & Hcase)
       |(text & Hmode & Hbody & Hvalid & [(err & _ & Hcase)|(user & Huser & Hcase)])];
    rewrite Hcase in Hrun; injection Hrun as <- <-.
  - destruct Hwrote as [H|H]; by destruct H.
  - destruct Hwrote as [H|H]; by destruct H.
  - exists text, user. repeat (split; [done|]).
    unfold afterRequest, afterConfirmation. cbn [sent].
    by rewrite <- app_assoc.
Qed.

Lemma authCallbackHandler_writes_only_confirmed_witness :
  authCallbackHandler (answering "200 OK" 200 "is_valid:true")
    (reading (envelope [JObject samplePlayer])) sampleRawQuery
    (mkState sampleAuther None [])
  = Returned (mkReply [formatUser sampleUser +:+ newline] (Some 200)
                "Rabscuttle - 76561197960287930")
      (mkState sampleAuther
         (Some (confirmationValues (ParseQuery sampleRawQuery).1))
         [confirmationRequest (ParseQuery sampleRawQuery).1;
          profileRequest sampleAuther "76561197960287930"])
  ∧ ∃ text,
      confirmationBody (answering "200 OK" 200 "is_valid:true") []
        (ParseQuery sampleRawQuery).1 = Some text
      ∧ Contains text "is_valid:true" = true.
Proof.
  assert (Hrun :
    authCallbackHandler (answering "200 OK" 200 "is_valid:true")
      (reading (envelope [JObject samplePlayer])) sampleRawQuery
      (mkState sampleAuther None [])
    = Returned (mkReply [formatUser sampleUser +:+ newline] (Some 200)
                  "Rabscuttle - 76561197960287930")
        (mkState sampleAuther
           (Some (confirmationValues (ParseQuery sampleRawQuery).1))
           [confirmationRequest (ParseQuery sampleRawQuery).1;
            profileRequest sampleAuther "76561197960287930"]))
    by reflexivity.
  split; [exact Hrun|].
  assert (Hwrote :
    wroteHeader (mkReply [formatUser sampleUser +:+ newline] (Some 200)
                   "Rabscuttle - 76561197960287930") ≠ None
    ∨ written (mkReply [formatUser sampleUser +:+ newline] (Some 200)
                 "Rabscuttle - 76561197960287930") ≠ EmptyString)
    by (left; discriminate).
  destruct (authCallbackHandler_writes_only_confirmed _ _ _ _ _ _ Hrun Hwrote)
    as (text & user & _ & Hbody & Hvalid & _).
  exists text. auto.
Defined.

(** X20.  For a request with mode [id_res] whose confirmation holds the
    marker and whose profile request is answered with status 200 and a
    body that decodes to a non-empty list of players, the handler writes
    status 200 and the name, [ - ] and the identifier of the first player,
    and prints that player.  The identifier it asks the profile of is the
    last segment of [openid.claimed_id]; the profile request sees the
    confirmation as the one request made before. *)
Theorem authCallbackHandler_writes_profile
    transport scan rawQuery σ text res d first rest :
  let m := (ParseQuery rawQuery).1 in
  let steamid := lastSegment (Get m "openid.claimed_id") in
  Get m "openid.mode" = "id_res" →
  confirmationBody transport (sent σ) m = Some text →
  Contains text "is_valid:true" = true →
  transport (sent σ ++ [confirmationRequest m])%list
    (profileRequest (receiver σ) steamid) = inr res →
  StatusCode res = 200 →
  Decode scan (Body res) = inr d →
  items (Players (Response_ d)) = first :: rest →
  authCallbackHandler transport scan rawQuery σ
  = Returned (mkReply [formatUser first +:+ newline] (Some 200)
                (PersonaName first +:+ " - " +:+ SteamID first))
      (mkState (receiver σ) (Some (confirmationValues m))
         (sent σ ++ [confirmationRequest m;
                     profileRequest (receiver σ) steamid])%list).
Proof.
  intros m steamid Hmode Hbody Hvalid Hres Hstatus Hd Hplayers.
  rewrite authCallbackHandler_unfold. fold m.
  rewrite (ValidateCallback_confirmed _ _ _ _ _ Hmode Hbody Hvalid).
  fold steamid. rewrite GetSteamUser_unfold. cbn zeta.
  unfold afterConfirmation, afterRequest. cbn [sent receiver vals].
  rewrite Hres, Hstatus, Hd, Hplayers. cbn iota.
  by rewrite <- app_assoc.
Qed.

Lemma authCallbackHandler_writes_profile_witness :
  Get (ParseQuery sampleRawQuery).1 "openid.mode" = "id_res"
  ∧ written <$> returned
      (authCallbackHandler (answering "200 OK" 200 "is_valid:true")
         (reading (envelope [JObject samplePlayer])) sampleRawQuery
         (mkState sampleAuther None []))
    = Some "Rabscuttle - 76561197960287930".
Proof.
  split; [reflexivity|].
  by rewrite (authCallbackHandler_writes_profile
                (answering "200 OK" 200 "is_valid:true")
                (reading (envelope [JObject samplePlayer])) sampleRawQuery
                (mkState sampleAuther None []) "is_valid:true"
                (mkResponse "200 OK" 200 (mkBody "is_valid:true" None))
                (mkData (mkResponseData (mkSlice [sampleUser] []))) sampleUser []
                eq_refl eq_refl eq_refl eq_refl eq_refl eq_refl eq_refl).
Defined.

(** ** The requests of a sequence of calls *)

Lemma perform_requests transport scan (c : Call) σ :
  ∃ σ' requests,
    perform transport scan c σ = Returned tt σ'
    ∧ receiver σ' = receiver σ
    ∧ sent σ' = (sent σ ++ requests)%list
    ∧ (List.length requests ≤ 1)%nat
    ∧ Forall (ownRequest (receiver σ)) requests.
Proof.
  destruct c as [returnUrl|v|steamid64]; unfold perform; run_go.
  - rewrite GetAuthUrl_run. exists σ, []. rewrite app_nil_r.
    repeat split; auto.
  - unfold pass. set (σ0 := mkState (receiver σ) v (sent σ)).
    destruct (decide (param σ0 "openid.mode" = "id_res")) as [Hmode|Hmode].
    + destruct (param_id_res σ0 Hmode) as (m & Hvals & Hm).
      assert (∃ r, ValidateCallback transport σ0
                   = Returned r (afterConfirmation σ0 m)) as [r ->].
      { rewrite (ValidateCallback_id_res transport σ0 m Hvals Hm).
        destruct (transport (sent σ0) (confirmationRequest m)) as [msg|res];
          [eauto|].
        destruct (failure (Body res)); [eauto|].
        destruct (Contains (content (Body res)) "is_valid:true"); eauto. }
      exists (afterConfirmation σ0 m), [confirmationRequest m].
      repeat split; auto. apply Forall_singleton. left. eauto.
    + rewrite (ValidateCallback_other_mode transport σ0 Hmode).
      exists σ0, []. cbn [sent σ0]. rewrite app_nil_r. repeat split; auto.
  - destruct (GetSteamUser_returns transport scan steamid64 σ) as [r ->].
    eexists _, [_]. repeat split; auto. apply Forall_singleton. right. eauto.
Qed.

(** X21.  In any sequence of calls of the three methods, requests are
    only added to those already sent, at most one for each call, and each
    is a request of the package: the POST of a confirmation to
    [OpenIdLoginUrl], or the GET of the summaries endpoint with the API key
    of the [SteamAuther]. *)
Theorem performAll_requests transport scan (calls : list Call) σ :
  ∃ σ' requests,
    performAll transport scan calls σ = Returned tt σ'
    ∧ sent σ' = (sent σ ++ requests)%list
    ∧ (List.length requests ≤ List.length calls)%nat
    ∧ Forall (ownRequest (receiver σ)) requests.
Proof.
  revert σ. induction calls as [|c calls IH]; intros σ.
  - exists σ, []. rewrite app_nil_r. repeat split; auto.
  - cbn [performAll]. unfold mbind, Go_bind.
    destruct (perform_requests transport scan c σ)
      as (σ1 & r1 & -> & Hsa & Hsent1 & Hlen1 & Hown1).
    destruct (IH σ1) as (σ2 & r2 & -> & Hsent2 & Hlen2 & Hown2).
    exists σ2, (r1 ++ r2)%list. split; [reflexivity|].
    split; [by rewrite Hsent2, Hsent1, app_assoc|].
    split; [rewrite length_app; cbn [List.length]; lia|].
    apply Forall_app. split; [exact Hown1|]. by rewrite <- Hsa.
Qed.

(** ** Instances of the properties without premise *)

Lemma GetSteamUser_request_parses_back_witness :
  ∃ r rq u,
    GetSteamUser unreachable noJson "1&key=stolen#" (mkState sampleAuther None [])
    = Returned r (afterRequest (mkState sampleAuther None []) rq)
    ∧ Parse (Target rq) = inr u
    ∧ Query u !! "key" = Some ["0123456789ABCDEF"]
    ∧ Query u !! "steamids" = Some ["1&key=stolen#"]
    ∧ Query u !! "format" = None.
Proof.
  destruct (GetSteamUser_request_parses_back unreachable noJson "1&key=stolen#"
              (mkState sampleAuther None []))
    as (r & rq & u & Hrun & _ & Hparse & _ & _ & _ & _ & _ & Hkey & Hid & Hother).
  exists r, rq, u. repeat (split; [assumption|]).
  apply Hother; discriminate.
Defined.

Lemma GetSteamUser_profile_or_error_witness :
  ∃ user err,
    returned (GetSteamUser unreachable noJson "76561197960287930"
                (mkState sampleAuther None []))
    = Some (user, err)
    ∧ (is_Some user ↔ err = None).
Proof.
  destruct (GetSteamUser_profile_or_error unreachable noJson "76561197960287930"
              (mkState sampleAuther None []))
    as (user & err & σ' & Hrun & Hxor & _).
  exists user, err. rewrite Hrun. split; [reflexivity|exact Hxor].
Defined.

(** ** A repeated [players] member *)

(** The second array is decoded into the element the first one left: the
    profile keeps the name and the state of the first and takes the
    identifier of the second. *)
Example GetSteamUser_repeated_players :
  returned
    (GetSteamUser (answering "200 OK" 200 "")
       (reading
          (JObject
             [("response",
               JObject
                 [("players",
                   JArray [JObject [("steamid", JString "1");
                                    ("personaname", JString "A");
                                    ("personastate", JInt 5)]]);
                  ("players", JArray [JObject [("steamid", JString "2")]])])]))
       "2" (mkState sampleAuther None []))
  = Some (Some (mkSteamUser "2" "A" 5 "" 0 0 "" "" ""), None).
Proof. reflexivity. Qed.

(** An array that is longer than the one before it is decoded, past the
    elements the slice has, into what the array of the slice still holds
    there. *)
Example decodeSlice_longer_again :
  decodeSlice decodeSteamUser zeroSteamUser
    (JArray [JObject []; JObject [("steamid", JString "4")]])
    (mkSlice [mkSteamUser "2" "A" 5 "" 0 0 "" "" ""]
             [mkSteamUser "3" "B" 6 "" 0 0 "" "" ""])
  = Some (mkSlice [mkSteamUser "2" "A" 5 "" 0 0 "" "" "";
                   mkSteamUser "4" "B" 6 "" 0 0 "" "" ""] []).
Proof. reflexivity. Qed.
